(** * CreateTranslatorClient: the on-device translator creation client

    A shallow embedding of
    [blink/renderer/modules/ai/on_device_translation/create_translator_client.cc]
    and the properties of its request lifecycle, followed by the audio
    processing layout of [blink/renderer/modules/mediastream].

    The client is a callback-driven object.  A callback is embedded as a
    function on a [World]: the fields of the client, the transient user
    activation of its frame, and the trace of the calls it has made on its
    collaborators (promise resolver, console, progress monitor, mojo pipes),
    oldest first. *)

From Stdlib Require Import Bool List String ZArith Lia.
Import ListNotations.

Local Open Scope string_scope.
Local Open Scope list_scope.

(** ** The mojom enumerations

    Both are switched on without a [default] label, so the labels of the two
    switches are the values of the enumerations. *)

Inductive CreateTranslatorError : Type :=
| kInvalidBinary
| kInvalidFunctionPointer
| kFailedToInitialize
| kFailedToCreateTranslator
| kAcceptLanguagesCheckFailed
| kExceedsLanguagePackCountLimitation
| kServiceCrashed
| kDisallowedByPolicy
| kExceedsServiceCountLimitation
| kExceedsPendingTaskCountLimitation
| kInvalidVersion.

Inductive CanCreateTranslatorResult : Type :=
| kReadily
| kAfterDownloadLibraryNotReady
| kAfterDownloadLanguagePackNotReady
| kAfterDownloadLibraryAndLanguagePackNotReady
| kAfterDownloadTranslatorCreationRequired
| kNoNotSupportedLanguage
| kNoAcceptLanguagesCheckFailed
| kNoExceedsLanguagePackCountLimitation
| kNoServiceCrashed
| kNoDisallowedByPolicy
| kNoExceedsServiceCountLimitation.

(** Every value of [CreateTranslatorError], in the order of the switch. *)
Definition all_CreateTranslatorError : list CreateTranslatorError :=
  [ kInvalidBinary; kInvalidFunctionPointer; kFailedToInitialize;
    kFailedToCreateTranslator; kAcceptLanguagesCheckFailed;
    kExceedsLanguagePackCountLimitation; kServiceCrashed; kDisallowedByPolicy;
    kExceedsServiceCountLimitation; kExceedsPendingTaskCountLimitation;
    kInvalidVersion ].

(** ** File-local constants and helpers (the anonymous namespace) *)

Definition kExceptionMessageUnableToCreateTranslator : string :=
  "Unable to create translator for the given source and target language.".

Definition kLinkToDocument : string :=
  ("See " ++
   "https://developer.chrome.com/docs/ai/translator-api?#supported-languages " ++
   "for more details.")%string.

Definition ConvertCreateTranslatorErrorToDebugString
  (error : CreateTranslatorError) : string :=
  match error with
  | kInvalidBinary => "Failed to load the translation library."
  | kInvalidFunctionPointer => "The translation library is not compatible."
  | kFailedToInitialize => "Failed to initialize the translation library."
  | kFailedToCreateTranslator =>
      "The translation library failed to create a translator."
  | kAcceptLanguagesCheckFailed =>
      ("The preferred languages check for Translator API failed. " ++
       kLinkToDocument)%string
  | kExceedsLanguagePackCountLimitation =>
      ("The Translator API language pack count exceeded the limitation. " ++
       kLinkToDocument)%string
  | kServiceCrashed => "The translation service crashed."
  | kDisallowedByPolicy => "The translation is disallowed by policy."
  | kExceedsServiceCountLimitation =>
      "The translation service count exceeded the limitation."
  | kExceedsPendingTaskCountLimitation =>
      "Too many Translator API requests are queued."
  | kInvalidVersion => "The translation library version is invalid."
  end.

Definition RequiresUserActivation (result : CanCreateTranslatorResult) : bool :=
  match result with
  | kAfterDownloadLibraryNotReady
  | kAfterDownloadLanguagePackNotReady
  | kAfterDownloadLibraryAndLanguagePackNotReady
  | kAfterDownloadTranslatorCreationRequired => true
  | kReadily
  | kNoNotSupportedLanguage
  | kNoAcceptLanguagesCheckFailed
  | kNoExceedsLanguagePackCountLimitation
  | kNoServiceCrashed
  | kNoDisallowedByPolicy
  | kNoExceedsServiceCountLimitation => false
  end.

(** [ends_with suffix s]: [s] is some string followed by [suffix]. *)
Definition ends_with (suffix s : string) : bool :=
  let n := String.length suffix in
  let m := String.length s in
  (n <=? m)%nat && String.eqb (substring (m - n) n s) suffix.

(** The variants of the availability result whose name says that a download
    is still needed, and the ones that are ready or blocked. *)
Definition download_still_needed (r : CanCreateTranslatorResult) : Prop :=
  r = kAfterDownloadLibraryNotReady \/
  r = kAfterDownloadLanguagePackNotReady \/
  r = kAfterDownloadLibraryAndLanguagePackNotReady \/
  r = kAfterDownloadTranslatorCreationRequired.

Definition ready_or_blocked (r : CanCreateTranslatorResult) : Prop :=
  r = kReadily \/
  r = kNoNotSupportedLanguage \/
  r = kNoAcceptLanguagesCheckFailed \/
  r = kNoExceedsLanguagePackCountLimitation \/
  r = kNoServiceCrashed \/
  r = kNoDisallowedByPolicy \/
  r = kNoExceedsServiceCountLimitation.


(** ** Collaborators of the client

    Their classes are declared outside this file.  Each is represented by the
    calls the client makes on it; a call is appended to the trace of the
    world. *)

(** The values of the console message enumerations and of the DOM exception
    codes that matter here; the file names [kJavaScript], [kWarning],
    [kNotSupportedError] and [kNotAllowedError]. *)
Inductive ConsoleMessageSource : Type := kJavaScript | kNetwork | kOther.
Inductive ConsoleMessageLevel : Type := kVerbose | kInfo | kWarning | kError.
Inductive DOMExceptionCode : Type :=
| kNotSupportedError | kNotAllowedError | kAbortError.

(** [mojom::blink::CreateTranslatorResult]: a union of a translator remote
    and an error. *)
Inductive CreateTranslatorResult : Type :=
| translator (remote : nat)
| error (e : CreateTranslatorError).

(** The [Translator] object handed to [Resolve]: the arguments of its
    constructor that come from the request and from the provider. *)
Record Translator : Type := {
  translator_remote : nat;
  translator_source_language : string;
  translator_target_language : string;
  translator_abort_signal : option nat
}.

(** A progress listener that script attached to the monitor.  It is called
    with [loaded] and [total]; its answer says whether it aborted the request
    while it handled the event. *)
Definition Listener : Type := Z -> Z -> bool.

(** [TranslatorCreateOptions], the request. *)
Record TranslatorCreateOptions : Type := {
  sourceLanguage : string;
  targetLanguage : string;
  monitor : option Listener;
  signal : option nat
}.

Inductive Call : Type :=
| InvokeMonitorCallback
| ConsumeTransientUserActivation
| Reject (code : DOMExceptionCode) (message : string)
| Resolve (t : Translator)
| AddConsoleMessage (source : ConsoleMessageSource)
                    (level : ConsoleMessageLevel) (message : string)
| ProgressEvent (loaded total : Z)
| ReceiverBind
| MonitorBindRemote
| CreateTranslator (source target : string) (progress_observer : bool).

Definition is_resolver_call (c : Call) : bool :=
  match c with
  | Reject _ _ | Resolve _ => true
  | _ => false
  end.

Definition is_create_request (c : Call) : bool :=
  match c with
  | CreateTranslator _ _ _ => true
  | _ => false
  end.

Definition count (p : Call -> bool) (t : list Call) : nat :=
  List.length (filter p t).

(** What [OnGotAvailability] reads from its surroundings: the runtime
    feature, whether the execution context is a service worker scope, and
    whether [LocalDOMWindow::From] finds a window. *)
Record Environment : Type := {
  TranslationAPIV1Enabled : bool;
  IsServiceWorkerGlobalScope : bool;
  window : bool
}.

(** The client and what it acts on. *)
Record World : Type := {
  resolver_ : bool;             (* [GetResolver()] is not null *)
  abort_signal_ : option nat;
  source_language_ : string;
  target_language_ : string;
  receiver_ : bool;             (* [receiver_] is bound *)
  monitor_ : option Listener;
  monitor_remote : bool;        (* the provider holds the monitor's remote *)
  user_activation : bool;       (* the frame has a transient activation *)
  cleanups : nat;               (* how often [Cleanup] has run *)
  trace : list Call
}.

(** Field updates. *)
Definition set_resolver_ (b : bool) (w : World) : World :=
  {| resolver_ := b; abort_signal_ := abort_signal_ w;
     source_language_ := source_language_ w;
     target_language_ := target_language_ w;
     receiver_ := receiver_ w; monitor_ := monitor_ w;
     monitor_remote := monitor_remote w;
     user_activation := user_activation w; cleanups := cleanups w;
     trace := trace w |}.

Definition set_languages (source target : string) (w : World) : World :=
  {| resolver_ := resolver_ w; abort_signal_ := abort_signal_ w;
     source_language_ := source; target_language_ := target;
     receiver_ := receiver_ w; monitor_ := monitor_ w;
     monitor_remote := monitor_remote w;
     user_activation := user_activation w; cleanups := cleanups w;
     trace := trace w |}.

Definition set_receiver_ (b : bool) (w : World) : World :=
  {| resolver_ := resolver_ w; abort_signal_ := abort_signal_ w;
     source_language_ := source_language_ w;
     target_language_ := target_language_ w;
     receiver_ := b; monitor_ := monitor_ w;
     monitor_remote := monitor_remote w;
     user_activation := user_activation w; cleanups := cleanups w;
     trace := trace w |}.

Definition set_monitor (m : option Listener) (remote : bool) (w : World)
  : World :=
  {| resolver_ := resolver_ w; abort_signal_ := abort_signal_ w;
     source_language_ := source_language_ w;
     target_language_ := target_language_ w;
     receiver_ := receiver_ w; monitor_ := m;
     monitor_remote := remote;
     user_activation := user_activation w; cleanups := cleanups w;
     trace := trace w |}.

Definition set_user_activation (b : bool) (w : World) : World :=
  {| resolver_ := resolver_ w; abort_signal_ := abort_signal_ w;
     source_language_ := source_language_ w;
     target_language_ := target_language_ w;
     receiver_ := receiver_ w; monitor_ := monitor_ w;
     monitor_remote := monitor_remote w;
     user_activation := b; cleanups := cleanups w;
     trace := trace w |}.

Definition set_cleanups (n : nat) (w : World) : World :=
  {| resolver_ := resolver_ w; abort_signal_ := abort_signal_ w;
     source_language_ := source_language_ w;
     target_language_ := target_language_ w;
     receiver_ := receiver_ w; monitor_ := monitor_ w;
     monitor_remote := monitor_remote w;
     user_activation := user_activation w; cleanups := n;
     trace := trace w |}.

(** A call on a collaborator: it is appended to the trace. *)
Definition call (c : Call) (w : World) : World :=
  {| resolver_ := resolver_ w; abort_signal_ := abort_signal_ w;
     source_language_ := source_language_ w;
     target_language_ := target_language_ w;
     receiver_ := receiver_ w; monitor_ := monitor_ w;
     monitor_remote := monitor_remote w;
     user_activation := user_activation w; cleanups := cleanups w;
     trace := trace w ++ [c] |}.

Inductive Crash : Type := CheckFailed | NullDereference.

(** A callback returns, or the process dies at a failed [CHECK] or a null
    dereference; the world is the one reached at that point. *)
Inductive Outcome : Type :=
| Returned (w : World)
| Crashed (why : Crash) (w : World).

Definition world_of (o : Outcome) : World :=
  match o with Returned w | Crashed _ w => w end.

(** ** MediaStreamAudioProcessingLayout

    The embedding of
    [blink/renderer/modules/mediastream/media_stream_audio_processing_layout.cc].
    An [int] of platform effect bits is a [Z]; [&], [|] and [~] are
    [Z.land], [Z.lor] and [Z.lnot], which agree with the two's complement
    operations and need no wrap-around. *)

(** What the file takes from the build and from [media/]: the build flags
    of its [#if]s, the two features and the two tandem switches it asks, and
    the values of the [media::AudioParameters] effect masks it names. *)
Record Platform : Type := {
  IS_CHROMEOS : bool;
  IS_WIN : bool;
  IS_IOS : bool;
  kCrOSSystemVoiceIsolationOption : bool;
  kIgnoreUiGains : bool;
  IsSystemEchoCancellationEnforcedAndAllowNsInTandem : bool;
  IsSystemEchoCancellationEnforcedAndAllowAgcInTandem : bool;
  ECHO_CANCELLER : Z;
  NOISE_SUPPRESSION : Z;
  AUTOMATIC_GAIN_CONTROL : Z;
  VOICE_ISOLATION_SUPPORTED : Z;
  CLIENT_CONTROLLED_VOICE_ISOLATION : Z;
  VOICE_ISOLATION : Z;
  IGNORE_UI_GAINS : Z
}.

(** [AudioProcessingProperties], as far as the file reads them.  The file
    names [kEchoCancellationSystem], [kEchoCancellationAec3],
    [kVoiceIsolationDisabled] and [kVoiceIsolationEnabled]; the third value
    of each enumeration stands for every other one. *)
Inductive EchoCancellationType : Type :=
| kEchoCancellationDisabled
| kEchoCancellationAec3
| kEchoCancellationSystem.

Inductive VoiceIsolationType : Type :=
| kVoiceIsolationDefault
| kVoiceIsolationDisabled
| kVoiceIsolationEnabled.

Record AudioProcessingProperties : Type := {
  echo_cancellation_type : EchoCancellationType;
  voice_isolation : VoiceIsolationType;
  noise_suppression : bool;
  auto_gain_control : bool
}.

(** [media::AudioProcessingSettings]: the four members the file assigns. *)
Record AudioProcessingSettings : Type := {
  settings_echo_cancellation : bool;
  settings_noise_suppression : bool;
  settings_automatic_gain_control : bool;
  settings_multi_channel_capture_processing : bool
}.

Definition is_system (t : EchoCancellationType) : bool :=
  match t with kEchoCancellationSystem => true | _ => false end.

Definition is_aec3 (t : EchoCancellationType) : bool :=
  match t with kEchoCancellationAec3 => true | _ => false end.

(** [effects & mask], read as a condition. *)
Definition has_effect (effects mask : Z) : bool :=
  negb (Z.land effects mask =? 0)%Z.

(** [effects &= ~mask] and [effects |= mask]. *)
Definition clear_effect (mask effects : Z) : Z :=
  Z.land effects (Z.lnot mask).

Definition set_effect (mask effects : Z) : Z := Z.lor effects mask.

Definition IsIndependentSystemNsAllowed (p : Platform) : bool :=
  if IS_CHROMEOS p || IS_WIN p then false else true.

(** [ApplyPropertiesToEffects], in the two parts its [#if] makes: the [if]
    on the echo cancellation type, which every build has, and the block that
    only a ChromeOS build has. *)
Definition EffectsForEchoCancellation
  (p : Platform) (properties : AudioProcessingProperties)
  (available_platfrom_effects : Z) : Z :=
  let e0 := available_platfrom_effects in
  if is_system (echo_cancellation_type properties) then
    if IS_WIN p then e0
    else
      let e :=
        if negb (noise_suppression properties) then
          if negb (IsIndependentSystemNsAllowed p)
          then clear_effect (NOISE_SUPPRESSION p) e0
          else e0
        else e0 in
      if negb (auto_gain_control properties)
      then clear_effect (AUTOMATIC_GAIN_CONTROL p) e
      else e
  else
    let e := clear_effect (ECHO_CANCELLER p) e0 in
    let e := clear_effect (AUTOMATIC_GAIN_CONTROL p) e in
    if negb (IsIndependentSystemNsAllowed p)
    then clear_effect (NOISE_SUPPRESSION p) e
    else e.

Definition EffectsForChromeOS
  (p : Platform) (properties : AudioProcessingProperties)
  (enabled_platform_effects : Z) : Z :=
  let e1 := enabled_platform_effects in
  let e2 :=
    if kCrOSSystemVoiceIsolationOption p
       && has_effect e1 (VOICE_ISOLATION_SUPPORTED p)
    then
      if is_aec3 (echo_cancellation_type properties)
         || match voice_isolation properties with
            | kVoiceIsolationDisabled => true
            | _ => false
            end
      then
        clear_effect (VOICE_ISOLATION p)
          (set_effect (CLIENT_CONTROLLED_VOICE_ISOLATION p) e1)
      else
        match voice_isolation properties with
        | kVoiceIsolationEnabled =>
            set_effect (VOICE_ISOLATION p)
              (set_effect (CLIENT_CONTROLLED_VOICE_ISOLATION p) e1)
        | _ => clear_effect (CLIENT_CONTROLLED_VOICE_ISOLATION p) e1
        end
    else e1 in
  if kIgnoreUiGains p then
    if auto_gain_control properties
    then set_effect (IGNORE_UI_GAINS p) e2
    else e2
  else e2.

Definition ApplyPropertiesToEffects
  (p : Platform) (properties : AudioProcessingProperties)
  (available_platfrom_effects : Z) : Z :=
  let e1 :=
    EffectsForEchoCancellation p properties available_platfrom_effects in
  if IS_CHROMEOS p then EffectsForChromeOS p properties e1 else e1.

Definition ComputeWebrtcProcessingSettings
  (p : Platform) (properties : AudioProcessingProperties)
  (enabled_platform_effects : Z) (multichannel_processing : bool)
  : AudioProcessingSettings :=
  {| settings_echo_cancellation :=
       is_aec3 (echo_cancellation_type properties);
     settings_noise_suppression :=
       noise_suppression properties
       && (IsSystemEchoCancellationEnforcedAndAllowNsInTandem p
           || negb (has_effect enabled_platform_effects
                      (NOISE_SUPPRESSION p)));
     settings_automatic_gain_control :=
       auto_gain_control properties
       && (IsSystemEchoCancellationEnforcedAndAllowAgcInTandem p
           || negb (has_effect enabled_platform_effects
                      (AUTOMATIC_GAIN_CONTROL p)));
     settings_multi_channel_capture_processing := multichannel_processing |}.

(** The members of [MediaStreamAudioProcessingLayout]. *)
Record MediaStreamAudioProcessingLayout : Type := {
  properties_ : AudioProcessingProperties;
  platform_effects_ : Z;
  webrtc_processing_settings_ : AudioProcessingSettings
}.

(** The constructor. *)
Definition MediaStreamAudioProcessingLayout_new
  (p : Platform) (properties : AudioProcessingProperties)
  (available_platform_effects channels : Z)
  : MediaStreamAudioProcessingLayout :=
  let effects :=
    ApplyPropertiesToEffects p properties available_platform_effects in
  {| properties_ := properties;
     platform_effects_ := effects;
     webrtc_processing_settings_ :=
       ComputeWebrtcProcessingSettings p properties effects
         (1 <? channels)%Z |}.

(** [NeedWebrtcAudioProcessing].  The method of the same name of
    [media::AudioProcessingSettings] is declared in [media/]; its answer is
    an argument. *)
Definition NeedWebrtcAudioProcessing
  (p : Platform) (settings_need : AudioProcessingSettings -> bool)
  (layout : MediaStreamAudioProcessingLayout) : bool :=
  if settings_need (webrtc_processing_settings_ layout) then true
  else if negb (IS_IOS p) && auto_gain_control (properties_ layout) then true
  else if noise_suppression (properties_ layout) then true
  else false.

Definition NoiseSuppressionInTandem
  (p : Platform) (layout : MediaStreamAudioProcessingLayout) : bool :=
  has_effect (platform_effects_ layout) (NOISE_SUPPRESSION p)
  && settings_noise_suppression (webrtc_processing_settings_ layout).

Definition AutomaticGainControlInTandem
  (p : Platform) (layout : MediaStreamAudioProcessingLayout) : bool :=
  has_effect (platform_effects_ layout) (AUTOMATIC_GAIN_CONTROL p)
  && settings_automatic_gain_control (webrtc_processing_settings_ layout).

(** [a] has no bit outside [b]. *)
Definition submask (a b : Z) : Prop :=
  forall n : Z, Z.testbit a n = true -> Z.testbit b n = true.

(** The masks a platform gives do not overlap.  In [media::AudioParameters]
    each is a bit of its own. *)
Definition disjoint_masks (p : Platform) : Prop :=
  let masks :=
    [ECHO_CANCELLER p; NOISE_SUPPRESSION p; AUTOMATIC_GAIN_CONTROL p;
     VOICE_ISOLATION_SUPPORTED p; CLIENT_CONTROLLED_VOICE_ISOLATION p;
     VOICE_ISOLATION p; IGNORE_UI_GAINS p] in
  forall i j a b,
    nth_error masks i = Some a -> nth_error masks j = Some b -> i <> j ->
    Z.land a b = 0%Z.

(** Sample platforms: the masks as successive bits. *)
Definition sample_platform (chromeos win tandem : bool) : Platform :=
  {| IS_CHROMEOS := chromeos; IS_WIN := win; IS_IOS := false;
     kCrOSSystemVoiceIsolationOption := true;
     kIgnoreUiGains := true;
     IsSystemEchoCancellationEnforcedAndAllowNsInTandem := tandem;
     IsSystemEchoCancellationEnforcedAndAllowAgcInTandem := tandem;
     ECHO_CANCELLER := 1;
     NOISE_SUPPRESSION := 16;
     AUTOMATIC_GAIN_CONTROL := 32;
     VOICE_ISOLATION_SUPPORTED := 4096;
     CLIENT_CONTROLLED_VOICE_ISOLATION := 8192;
     VOICE_ISOLATION := 16384;
     IGNORE_UI_GAINS := 32768 |}.

Definition sample_properties
  (t : EchoCancellationType) (ns agc : bool) : AudioProcessingProperties :=
  {| echo_cancellation_type := t; voice_isolation := kVoiceIsolationDefault;
     noise_suppression := ns; auto_gain_control := agc |}.

Section Client.

(** Constants of [ai_utils.h], which is not part of the sources at hand. *)
Variable kNormalizedDownloadProgressMax : Z.
Variable kExceptionMessageUserActivationRequired : string.

(** *** The base class [AIContextObserver] and the monitor *)

(** Modelled from the spec: the abort algorithm of [AIContextObserver] is
    missing.  The cancellation mechanism only flips the flag that the client
    polls; from then on the resolver is absent. *)
Definition Abort (w : World) : World := set_resolver_ false w.

(** Modelled from the spec: [CreateMonitor::OnDownloadProgressUpdate] is
    missing.  The event is forwarded verbatim to the listener unless the
    resolver has already gone absent; the listener may abort the request
    while it handles the event. *)
Definition OnDownloadProgressUpdate
  (listener : Listener) (loaded total : Z) (w : World) : World :=
  if resolver_ w then
    let w' := call (ProgressEvent loaded total) w in
    if listener loaded total then Abort w' else w'
  else w.

(** Modelled from the spec: [LocalFrame::ConsumeTransientUserActivation] is
    missing.  It answers whether an activation was pending and consumes it. *)
Definition LocalFrame_ConsumeTransientUserActivation (w : World)
  : bool * World :=
  (user_activation w,
   set_user_activation false (call ConsumeTransientUserActivation w)).

(** *** [CreateTranslatorClient] *)

(** The constructor: the resolver is given, nothing is bound, and the
    monitor callback of the options is invoked with a new monitor. *)
Definition CreateTranslatorClient_new
  (options : TranslatorCreateOptions) (activation : bool) : World :=
  {| resolver_ := true; abort_signal_ := signal options;
     source_language_ := sourceLanguage options;
     target_language_ := targetLanguage options;
     receiver_ := false; monitor_ := monitor options;
     monitor_remote := false;
     user_activation := activation; cleanups := 0;
     trace := match monitor options with
              | Some _ => [InvokeMonitorCallback]
              | None => []
              end |}.

(** [ResetReceiver]: [receiver_.reset()]. *)
Definition ResetReceiver (w : World) : World := set_receiver_ false w.

(** Modelled from the spec: [AIContextObserver::Cleanup] is missing.  It
    releases the channel endpoint (through [ResetReceiver]) and the progress
    monitor, and from then on the resolver is absent. *)
Definition Cleanup (w : World) : World :=
  let w1 := ResetReceiver w in
  let w2 := set_monitor None false w1 in
  let w3 := set_resolver_ false w2 in
  set_cleanups (S (cleanups w3)) w3.

(** [GetResolver()->Resolve(MakeGarbageCollected<Translator>(...))]: the two
    language strings are moved into the translator. *)
Definition ResolveWithTranslator (remote : nat) (w : World) : World :=
  let t := {| translator_remote := remote;
              translator_source_language := source_language_ w;
              translator_target_language := target_language_ w;
              translator_abort_signal := abort_signal_ w |} in
  set_languages "" "" (call (Resolve t) w).

(** The body of [OnResult], up to each of its [return]s. *)
Definition OnResult_body (result : CreateTranslatorResult) (w : World)
  : World :=
  if negb (resolver_ w) then w
  else
    match result with
    | error e =>
        let w1 :=
          call (AddConsoleMessage kJavaScript kWarning
                  (ConvertCreateTranslatorErrorToDebugString e)) w in
        call (Reject kNotSupportedError
                kExceptionMessageUnableToCreateTranslator) w1
    | translator remote =>
        match monitor_ w with
        | Some m =>
            let w1 :=
              OnDownloadProgressUpdate m 0 kNormalizedDownloadProgressMax w in
            if negb (resolver_ w1) then w1
            else
              let w2 :=
                OnDownloadProgressUpdate m kNormalizedDownloadProgressMax
                  kNormalizedDownloadProgressMax w1 in
              if negb (resolver_ w2) then w2
              else ResolveWithTranslator remote w2
        | None => ResolveWithTranslator remote w
        end
    end.

(** [OnResult]: [run_on_destruction] calls [Cleanup] when the body returns. *)
Definition OnResult (result : CreateTranslatorResult) (w : World) : World :=
  Cleanup (OnResult_body result w).

(** The tail of [OnGotAvailability]: bind the receiver, bind the monitor's
    remote if there is a monitor, send the create request. *)
Definition BindAndCreate (w : World) : World :=
  let w1 := call ReceiverBind (set_receiver_ true w) in
  let '(progress_observer, w2) :=
    match monitor_ w1 with
    | Some m => (true, call MonitorBindRemote (set_monitor (Some m) true w1))
    | None => (false, w1)
    end in
  call (CreateTranslator (source_language_ w2) (target_language_ w2)
          progress_observer) w2.

(** [OnGotAvailability].  The condition of its [if] is a chain of [&&]: the
    activation is consumed only when the three tests before it hold. *)
Definition OnGotAvailability
  (env : Environment) (result : CanCreateTranslatorResult) (w : World)
  : Outcome :=
  if negb (window env || IsServiceWorkerGlobalScope env) then
    Crashed CheckFailed w
  else
    let '(refused, w1) :=
      if TranslationAPIV1Enabled env
         && negb (IsServiceWorkerGlobalScope env)
         && RequiresUserActivation result
      then
        let '(consumed, w') := LocalFrame_ConsumeTransientUserActivation w in
        (negb consumed, w')
      else (false, w) in
    if refused then
      if resolver_ w1 then
        Returned (call (Reject kNotAllowedError
                          kExceptionMessageUserActivationRequired) w1)
      else Crashed NullDereference w1
    else Returned (BindAndCreate w1).

(** *** The lifecycle of a request *)

(** What reaches the client after the availability reply. *)
Inductive Message : Type :=
| CreateResult (r : CreateTranslatorResult)
| DownloadProgress (loaded total : Z)
| AbortSignalled.

(** Modelled from the spec: the dispatch of the mojo pipes is missing.  A
    creation result is received on the channel endpoint, so only while the
    receiver is bound; a progress push is received by the monitor, so only
    while the provider holds its remote and the monitor is not released. *)
Definition deliver (w : World) (m : Message) : World :=
  match m with
  | CreateResult r => if receiver_ w then OnResult r w else w
  | DownloadProgress loaded total =>
      match monitor_ w with
      | Some l =>
          if monitor_remote w then OnDownloadProgressUpdate l loaded total w
          else w
      | None => w
      end
  | AbortSignalled => Abort w
  end.

Definition deliver_all (ms : list Message) (w : World) : World :=
  fold_left deliver ms w.

(** A request lifecycle: the request, whether the frame has a transient
    activation, whether the request is aborted before the availability reply,
    the availability reply (there is one per request), and the messages that
    arrive after it, in any number and order. *)
Record Lifecycle : Type := {
  request : TranslatorCreateOptions;
  activation : bool;
  aborted_early : bool;
  availability : CanCreateTranslatorResult;
  messages : list Message
}.

Definition run (env : Environment) (lc : Lifecycle) : World :=
  let w0 := CreateTranslatorClient_new (request lc) (activation lc) in
  let w0' := if aborted_early lc then Abort w0 else w0 in
  match OnGotAvailability env (availability lc) w0' with
  | Returned w1 => deliver_all (messages lc) w1
  | Crashed _ w1 => w1
  end.

(** *** Notions used in the statements *)

(** The calls that [BindAndCreate] makes in a world [w]. *)
Definition binding_calls (w : World) : list Call :=
  match monitor_ w with
  | Some _ =>
      [ReceiverBind; MonitorBindRemote;
       CreateTranslator (source_language_ w) (target_language_ w) true]
  | None =>
      [ReceiverBind;
       CreateTranslator (source_language_ w) (target_language_ w) false]
  end.

(** No pipe of the provider reaches the client. *)
Definition quiescent (w : World) : Prop :=
  receiver_ w = false /\ monitor_remote w = false.

(** The resolver was not called yet, or it was called once, by the last call
    of the trace, and the client is quiescent. *)
Definition settled_once (w : World) : Prop :=
  count is_resolver_call (trace w) = 0%nat \/
  (exists pre c,
     trace w = pre ++ [c] /\ is_resolver_call c = true /\
     count is_resolver_call pre = 0%nat /\ quiescent w).

(** While the resolver is present, the client still holds what the request
    gave it. *)
Definition holds_request (options : TranslatorCreateOptions) (w : World)
  : Prop :=
  resolver_ w = true ->
  monitor_ w = monitor options /\
  source_language_ w = sourceLanguage options /\
  target_language_ w = targetLanguage options /\
  abort_signal_ w = signal options.

(** The condition of [OnGotAvailability] under which the activation is
    looked at. *)
Definition activation_checked
  (env : Environment) (r : CanCreateTranslatorResult) : Prop :=
  TranslationAPIV1Enabled env = true /\
  IsServiceWorkerGlobalScope env = false /\
  RequiresUserActivation r = true.

(** Kinds of calls. *)
Definition is_progress_event (c : Call) : bool :=
  match c with ProgressEvent _ _ => true | _ => false end.

(** The calls of the constructor for a request. *)
Definition constructor_calls (options : TranslatorCreateOptions)
  : list Call :=
  match monitor options with
  | Some _ => [InvokeMonitorCallback]
  | None => []
  end.

(** The condition of [OnGotAvailability] under which the activation is
    looked at, as the code computes it. *)
Definition checks_activation
  (env : Environment) (r : CanCreateTranslatorResult) : bool :=
  TranslationAPIV1Enabled env && negb (IsServiceWorkerGlobalScope env)
  && RequiresUserActivation r.

(** *** Sample requests and surroundings *)

Definition window_with_feature : Environment :=
  {| TranslationAPIV1Enabled := true;
     IsServiceWorkerGlobalScope := false;
     window := true |}.

Definition window_without_feature : Environment :=
  {| TranslationAPIV1Enabled := false;
     IsServiceWorkerGlobalScope := false;
     window := true |}.

Definition service_worker_with_feature : Environment :=
  {| TranslationAPIV1Enabled := true;
     IsServiceWorkerGlobalScope := true;
     window := false |}.

Definition quiet_listener : Listener := fun _ _ => false.

(** A listener that aborts the request as soon as it sees [loaded = 0]. *)
Definition aborting_listener : Listener := fun loaded _ => (loaded =? 0)%Z.

Definition en_to_fr (l : option Listener) : TranslatorCreateOptions :=
  {| sourceLanguage := "en"; targetLanguage := "fr";
     monitor := l; signal := Some 1%nat |}.

Definition en_to_xx : TranslatorCreateOptions :=
  {| sourceLanguage := "en"; targetLanguage := "xx";
     monitor := None; signal := None |}.

(** A listener that aborts the request when it sees [loaded = total]. *)
Definition aborting_at_completion : Listener :=
  fun loaded total => (loaded =? total)%Z.

Definition neither_window_nor_worker : Environment :=
  {| TranslationAPIV1Enabled := true;
     IsServiceWorkerGlobalScope := false;
     window := false |}.

Definition sample_max : Z := 65536.

Definition sample_activation_message : string :=
  "Requires a user gesture.".

(** ** Properties *)

(** Projections of updated worlds, and nothing else, are computed. *)
Ltac world_simpl :=
  cbn [resolver_ abort_signal_ source_language_ target_language_ receiver_
       monitor_ monitor_remote user_activation cleanups trace
       set_resolver_ set_languages set_receiver_ set_monitor
       set_user_activation set_cleanups call Abort ResetReceiver Cleanup
       LocalFrame_ConsumeTransientUserActivation world_of fst snd negb] in *.

(** *** Traces *)

Lemma count_app :
  forall (p : Call -> bool) (a b : list Call),
    count p (a ++ b) = (count p a + count p b)%nat.
Proof.
  intros p a b. unfold count.
  rewrite List.filter_app, List.length_app. reflexivity.
Qed.

Lemma count_binding_calls :
  forall w,
    count is_create_request (binding_calls w) = 1%nat /\
    count is_resolver_call (binding_calls w) = 0%nat /\
    ~ In ConsumeTransientUserActivation (binding_calls w).
Proof.
  intros w. unfold binding_calls.
  destruct (monitor_ w); simpl; repeat split; intuition discriminate.
Qed.

Lemma BindAndCreate_trace :
  forall w, trace (BindAndCreate w) = trace w ++ binding_calls w.
Proof.
  intros w. unfold BindAndCreate, binding_calls. simpl.
  destruct (monitor_ w); simpl; repeat rewrite <- List.app_assoc; reflexivity.
Qed.

Lemma last_call_unique :
  forall (pre : list Call) (c : Call) (pre' : list Call) (c' : Call)
         (post : list Call),
    pre ++ [c] = pre' ++ c' :: post ->
    count is_resolver_call pre = 0%nat ->
    is_resolver_call c' = true ->
    post = [].
Proof.
  intros pre c pre' c' post E Hpre Hc'.
  destruct (exists_last (l := c' :: post)) as [front [x Hx]];
    [discriminate|].
  destruct post as [|y post']; [reflexivity|exfalso].
  rewrite Hx, List.app_assoc in E.
  apply app_inj_tail in E. destruct E as [E _].
  destruct front as [|z front'].
  - discriminate Hx.
  - simpl in Hx. injection Hx as Hz _. subst z.
    rewrite E, count_app in Hpre.
    unfold count in Hpre at 2. simpl in Hpre. rewrite Hc' in Hpre.
    simpl in Hpre. lia.
Qed.

(** *** The callbacks, step by step *)

Lemma Cleanup_spec :
  forall w,
    trace (Cleanup w) = trace w /\
    cleanups (Cleanup w) = S (cleanups w) /\
    resolver_ (Cleanup w) = false /\
    monitor_ (Cleanup w) = None /\
    quiescent (Cleanup w).
Proof. intros w. unfold quiescent. simpl. repeat split. Qed.

Lemma OnDownloadProgressUpdate_trace :
  forall l loaded total w,
    trace (OnDownloadProgressUpdate l loaded total w) =
      trace w ++ (if resolver_ w then [ProgressEvent loaded total] else []).
Proof.
  intros l loaded total w. unfold OnDownloadProgressUpdate.
  destruct (resolver_ w); [|symmetry; apply app_nil_r].
  destruct (l loaded total); reflexivity.
Qed.

Lemma OnDownloadProgressUpdate_fields :
  forall l loaded total w,
    let w' := OnDownloadProgressUpdate l loaded total w in
    receiver_ w' = receiver_ w /\ monitor_remote w' = monitor_remote w /\
    monitor_ w' = monitor_ w /\ source_language_ w' = source_language_ w /\
    target_language_ w' = target_language_ w /\
    abort_signal_ w' = abort_signal_ w /\ cleanups w' = cleanups w /\
    (resolver_ w' = true -> resolver_ w = true).
Proof.
  intros l loaded total w. unfold OnDownloadProgressUpdate.
  destruct (resolver_ w) eqn:R; cbv zeta.
  - destruct (l loaded total); simpl; intuition congruence.
  - intuition congruence.
Qed.

(** What one run of [OnResult] adds to the trace: nothing that is a
    resolver call, or calls of which the last, and only the last, is one. *)
Lemma OnResult_body_calls :
  forall r w,
    exists added,
      trace (OnResult_body r w) = trace w ++ added /\
      (count is_resolver_call added = 0%nat \/
       exists front c,
         added = front ++ [c] /\ is_resolver_call c = true /\
         count is_resolver_call front = 0%nat).
Proof.
  intros r w. unfold OnResult_body.
  destruct (resolver_ w) eqn:R; simpl.
  2:{ exists []. rewrite app_nil_r. auto. }
  destruct r as [remote | e].
  - destruct (monitor_ w) as [l|].
    + set (M := kNormalizedDownloadProgressMax).
      set (w1 := OnDownloadProgressUpdate l 0 M w).
      assert (T1 : trace w1 = trace w ++ [ProgressEvent 0 M]).
      { unfold w1. rewrite OnDownloadProgressUpdate_trace, R. reflexivity. }
      destruct (resolver_ w1) eqn:R1; simpl.
      * set (w2 := OnDownloadProgressUpdate l M M w1).
        assert (T2 : trace w2 =
                     trace w ++ [ProgressEvent 0 M; ProgressEvent M M]).
        { unfold w2. rewrite OnDownloadProgressUpdate_trace, R1, T1.
          rewrite <- List.app_assoc. reflexivity. }
        destruct (resolver_ w2) eqn:R2; simpl.
        -- eexists. split.
           ++ unfold ResolveWithTranslator. simpl.
              rewrite T2, <- List.app_assoc. reflexivity.
           ++ right. exists [ProgressEvent 0 M; ProgressEvent M M].
              eexists. split; [reflexivity|]. split; reflexivity.
        -- eexists. split; [exact T2|]. left. reflexivity.
      * eexists. split; [exact T1|]. left. reflexivity.
    + eexists. split; [reflexivity|]. right. exists []. eexists.
      split; [reflexivity|]. split; reflexivity.
  - eexists. split; [simpl; rewrite <- List.app_assoc; reflexivity|].
    right. eexists [_]. eexists. split; [reflexivity|]. split; reflexivity.
Qed.

Lemma OnResult_cleanups :
  forall r w, cleanups (OnResult r w) = S (cleanups w).
Proof.
  intros r w. unfold OnResult.
  rewrite (proj1 (proj2 (Cleanup_spec _))).
  f_equal. unfold OnResult_body.
  destruct (resolver_ w); cbn [negb]; [|reflexivity].
  destruct r as [remote | e]; [|reflexivity].
  destruct (monitor_ w) as [l|]; [|reflexivity].
  set (M := kNormalizedDownloadProgressMax).
  destruct (OnDownloadProgressUpdate_fields l 0 M w)
    as [_ [_ [_ [_ [_ [_ [C1 _]]]]]]].
  destruct (resolver_ (OnDownloadProgressUpdate l 0 M w));
    cbn [negb]; [|exact C1].
  destruct (OnDownloadProgressUpdate_fields l M M
              (OnDownloadProgressUpdate l 0 M w))
    as [_ [_ [_ [_ [_ [_ [C2 _]]]]]]].
  destruct (resolver_ (OnDownloadProgressUpdate l M M
                         (OnDownloadProgressUpdate l 0 M w)));
    cbn [negb]; [|congruence].
  unfold ResolveWithTranslator. cbn. congruence.
Qed.

Lemma OnResult_quiescent :
  forall r w,
    quiescent (OnResult r w) /\ resolver_ (OnResult r w) = false /\
    monitor_ (OnResult r w) = None.
Proof. intros r w. unfold OnResult, quiescent. cbn. repeat split. Qed.

Lemma OnResult_settled :
  forall r w,
    count is_resolver_call (trace w) = 0%nat -> settled_once (OnResult r w).
Proof.
  intros r w H0. unfold OnResult.
  destruct (OnResult_body_calls r w)
    as [added [T [A | [front [c [A [Hc F]]]]]]].
  - left. simpl. rewrite T, count_app, H0, A. reflexivity.
  - right. exists (trace w ++ front), c. repeat split.
    + simpl. rewrite T, A, List.app_assoc. reflexivity.
    + exact Hc.
    + rewrite count_app, H0, F. reflexivity.
Qed.

Lemma deliver_quiescent :
  forall w m,
    quiescent w ->
    trace (deliver w m) = trace w /\ cleanups (deliver w m) = cleanups w /\
    quiescent (deliver w m).
Proof.
  intros w m [Hr Hm]. unfold quiescent.
  destruct m as [r | loaded total |]; simpl.
  - rewrite Hr. auto.
  - destruct (monitor_ w); [rewrite Hm|]; auto.
  - auto.
Qed.

Lemma deliver_all_quiescent :
  forall ms w,
    quiescent w ->
    trace (deliver_all ms w) = trace w /\
    cleanups (deliver_all ms w) = cleanups w.
Proof.
  induction ms as [|m ms IH]; intros w Q; simpl; [auto|].
  destruct (deliver_quiescent w m Q) as [T [C Q']].
  destruct (IH _ Q') as [T' C']. rewrite T', C'. auto.
Qed.

Lemma deliver_settled :
  forall w m, settled_once w -> settled_once (deliver w m).
Proof.
  intros w m [H0 | [pre [c [T [Hc [Hpre Q]]]]]].
  - destruct m as [r | loaded total |]; simpl.
    + destruct (receiver_ w); [apply OnResult_settled; exact H0|left; exact H0].
    + left. destruct (monitor_ w) as [l|]; [|exact H0].
      destruct (monitor_remote w); [|exact H0].
      rewrite OnDownloadProgressUpdate_trace, count_app, H0.
      destruct (resolver_ w); reflexivity.
    + left. exact H0.
  - destruct (deliver_quiescent w m Q) as [T' [_ Q']].
    right. exists pre, c. rewrite T'. auto.
Qed.

Lemma deliver_all_settled :
  forall ms w, settled_once w -> settled_once (deliver_all ms w).
Proof.
  induction ms as [|m ms IH]; intros w S; simpl; [exact S|].
  apply IH, deliver_settled, S.
Qed.

Lemma deliver_holds_request :
  forall options w m,
    holds_request options w -> holds_request options (deliver w m).
Proof.
  intros options w m H. unfold holds_request in *.
  destruct m as [r | loaded total |]; simpl.
  - destruct (receiver_ w); [|exact H].
    intros R. simpl in R. discriminate R.
  - destruct (monitor_ w) as [l|] eqn:M;
      [|rewrite <- M in H; exact H].
    destruct (monitor_remote w); [|rewrite <- M in H; exact H].
    destruct (OnDownloadProgressUpdate_fields l loaded total w)
      as [_ [_ [E1 [E2 [E3 [E4 [_ R]]]]]]].
    intros R'. rewrite E1, E2, E3, E4, M. apply H, R, R'.
  - intros R. discriminate R.
Qed.

Lemma deliver_all_holds_request :
  forall options ms w,
    holds_request options w -> holds_request options (deliver_all ms w).
Proof.
  intros options. induction ms as [|m ms IH]; intros w H; simpl; [exact H|].
  apply IH, deliver_holds_request, H.
Qed.

Lemma OnGotAvailability_not_checked :
  forall env r w,
    window env || IsServiceWorkerGlobalScope env = true ->
    TranslationAPIV1Enabled env && negb (IsServiceWorkerGlobalScope env)
      && RequiresUserActivation r = false ->
    OnGotAvailability env r w = Returned (BindAndCreate w).
Proof.
  intros env r w Hcheck Hcond. unfold OnGotAvailability.
  rewrite Hcheck, Hcond. reflexivity.
Qed.

Lemma OnGotAvailability_settled :
  forall env r w,
    count is_resolver_call (trace w) = 0%nat -> quiescent w ->
    settled_once (world_of (OnGotAvailability env r w)).
Proof.
  intros env r w H0 Q. unfold OnGotAvailability.
  destruct (negb (window env || IsServiceWorkerGlobalScope env));
    [left; exact H0|].
  destruct (TranslationAPIV1Enabled env
            && negb (IsServiceWorkerGlobalScope env)
            && RequiresUserActivation r).
  - world_simpl. destruct (user_activation w); world_simpl.
    + left. rewrite BindAndCreate_trace, count_app. world_simpl.
      rewrite count_app, H0.
      rewrite (proj1 (proj2 (count_binding_calls _))). reflexivity.
    + destruct (resolver_ w); world_simpl.
      * right. exists (trace w ++ [ConsumeTransientUserActivation]).
        eexists. split; [reflexivity|]. split; [reflexivity|].
        split; [rewrite count_app, H0; reflexivity|exact Q].
      * left. world_simpl. rewrite count_app, H0. reflexivity.
  - left. world_simpl. rewrite BindAndCreate_trace, count_app, H0.
    destruct (count_binding_calls w) as [_ [B _]]. rewrite B. reflexivity.
Qed.

Lemma run_settled : forall env lc, settled_once (run env lc).
Proof.
  intros env lc. unfold run.
  set (w0 := CreateTranslatorClient_new (request lc) (activation lc)).
  set (w0' := if aborted_early lc then Abort w0 else w0).
  assert (T : trace w0' = trace w0)
    by (unfold w0'; destruct (aborted_early lc); reflexivity).
  assert (Q : quiescent w0')
    by (unfold w0', quiescent; destruct (aborted_early lc); simpl; auto).
  assert (H0 : count is_resolver_call (trace w0') = 0%nat).
  { rewrite T. unfold w0. simpl. destruct (monitor (request lc)); reflexivity. }
  pose proof (OnGotAvailability_settled env (availability lc) w0' H0 Q) as S.
  destruct (OnGotAvailability env (availability lc) w0') as [w1 | why w1];
    simpl in S; [apply deliver_all_settled, S|exact S].
Qed.

Lemma BindAndCreate_holds_request :
  forall options w,
    holds_request options w -> holds_request options (BindAndCreate w).
Proof.
  intros options w H. unfold holds_request, BindAndCreate in *.
  world_simpl.
  destruct (monitor_ w) eqn:M; world_simpl; rewrite ?M; exact H.
Qed.

Lemma OnGotAvailability_holds_request :
  forall options env r w,
    holds_request options w ->
    holds_request options (world_of (OnGotAvailability env r w)).
Proof.
  intros options env r w H. unfold OnGotAvailability.
  destruct (negb (window env || IsServiceWorkerGlobalScope env));
    [exact H|].
  destruct (TranslationAPIV1Enabled env
            && negb (IsServiceWorkerGlobalScope env)
            && RequiresUserActivation r).
  - world_simpl. destruct (user_activation w); world_simpl.
    + apply BindAndCreate_holds_request. exact H.
    + destruct (resolver_ w); exact H.
  - apply BindAndCreate_holds_request. exact H.
Qed.

Lemma run_holds_request :
  forall env lc, holds_request (request lc) (run env lc).
Proof.
  intros env lc. unfold run.
  set (w0 := CreateTranslatorClient_new (request lc) (activation lc)).
  set (w0' := if aborted_early lc then Abort w0 else w0).
  assert (H : holds_request (request lc) w0').
  { unfold w0', holds_request. destruct (aborted_early lc); simpl.
    - intros R. discriminate R.
    - auto. }
  pose proof (OnGotAvailability_holds_request
                (request lc) env (availability lc) w0' H) as G.
  destruct (OnGotAvailability env (availability lc) w0') as [w1 | why w1];
    simpl in G; [apply deliver_all_holds_request, G|exact G].
Qed.

Lemma OnResult_success_with_monitor :
  forall remote l w,
    resolver_ w = true -> monitor_ w = Some l ->
    l 0%Z kNormalizedDownloadProgressMax = false ->
    l kNormalizedDownloadProgressMax kNormalizedDownloadProgressMax = false ->
    trace (OnResult (translator remote) w) =
      trace w ++
      [ProgressEvent 0 kNormalizedDownloadProgressMax;
       ProgressEvent kNormalizedDownloadProgressMax
         kNormalizedDownloadProgressMax;
       Resolve {| translator_remote := remote;
                  translator_source_language := source_language_ w;
                  translator_target_language := target_language_ w;
                  translator_abort_signal := abort_signal_ w |}].
Proof.
  intros remote l w R M L0 L1.
  unfold OnResult, OnResult_body, OnDownloadProgressUpdate.
  rewrite M.
  repeat first [rewrite R | rewrite L0 | rewrite L1 | progress cbn].
  repeat rewrite <- List.app_assoc. reflexivity.
Qed.

Lemma OnResult_failure :
  forall e w,
    resolver_ w = true ->
    trace (OnResult (error e) w) =
      trace w ++
      [AddConsoleMessage kJavaScript kWarning
         (ConvertCreateTranslatorErrorToDebugString e);
       Reject kNotSupportedError kExceptionMessageUnableToCreateTranslator].
Proof.
  intros e w R. unfold OnResult, OnResult_body. rewrite R. simpl.
  rewrite <- List.app_assoc. reflexivity.
Qed.

Lemma BindAndCreate_fields :
  forall w,
    resolver_ (BindAndCreate w) = resolver_ w /\
    receiver_ (BindAndCreate w) = true /\
    user_activation (BindAndCreate w) = user_activation w /\
    cleanups (BindAndCreate w) = cleanups w.
Proof.
  intros w. unfold BindAndCreate. cbn.
  destruct (monitor_ w); cbn; repeat split.
Qed.

(** X9.  [OnGotAvailability] runs no [Cleanup] after its rejection: the
    resolver stays present, and it is the unbound receiver that keeps a
    later creation result away from [OnResult]. *)
Remark rejection_for_missing_activation_keeps_resolver :
  forall env r w,
    window env = true -> activation_checked env r ->
    user_activation w = false -> resolver_ w = true ->
    exists w',
      OnGotAvailability env r w = Returned w' /\
      resolver_ w' = true /\ cleanups w' = cleanups w /\
      receiver_ w' = receiver_ w.
Proof.
  intros env r w W [F [S Q]] A R. unfold OnGotAvailability.
  rewrite F, S, W, Q. cbn. rewrite A. cbn. rewrite R.
  eexists. split; [reflexivity|]. cbn. auto.
Qed.

(** ** The claims *)

(** C1 (amended).  In every request lifecycle (any request, activation,
    early abort, availability reply and environment, followed by creation
    results, progress pushes and abort signals in any number and order) the
    trace holds at most one [Resolve] or [Reject] call, and where it holds
    one, that call is the last of the trace: nothing observable follows the
    first call on the resolver.  Every run of [OnResult] leaves the resolver
    absent, so that a further creation result, even handed to [OnResult]
    directly, adds nothing to the trace.  Nothing is said of the resolver
    after the rejection that [OnGotAvailability] makes. *)
Theorem resolver_called_at_most_once :
  forall (env : Environment) (lc : Lifecycle),
    (count is_resolver_call (trace (run env lc)) <= 1)%nat /\
    (forall pre c post,
       trace (run env lc) = pre ++ c :: post ->
       is_resolver_call c = true -> post = []) /\
    (forall r r' w,
       resolver_ (OnResult r w) = false /\
       trace (OnResult r' (OnResult r w)) = trace (OnResult r w)).
Proof.
  intros env lc.
  assert (Again : forall r r' w,
            resolver_ (OnResult r w) = false /\
            trace (OnResult r' (OnResult r w)) = trace (OnResult r w)).
  { intros r r' w. split; [reflexivity|].
    unfold OnResult at 1, OnResult_body at 1.
    destruct (OnResult_quiescent r w) as [_ [R _]]. rewrite R. reflexivity. }
  destruct (run_settled env lc) as [H0 | [pre [c [T [Hc [Hpre _]]]]]].
  - split; [lia|]. split; [|exact Again].
    intros pre c post E Hc. exfalso.
    rewrite E, count_app in H0. unfold count in H0 at 2. simpl in H0.
    rewrite Hc in H0. simpl in H0. lia.
  - split; [|split; [|exact Again]].
    + rewrite T, count_app, Hpre. unfold count. simpl. rewrite Hc.
      simpl. lia.
    + intros pre' c' post E Hc'. rewrite T in E.
      exact (last_call_unique pre c pre' c' post E Hpre Hc').
Qed.

(** C2 (amended).  For an availability result that requires a download:
    with the TranslationAPIV1 feature enabled, in a window that is no service
    worker scope, with no transient activation pending and the resolver
    present, [OnGotAvailability] tries to consume the activation, rejects
    with NotAllowedError and the activation-required message, and returns
    with the receiver and the monitor remote as they were, without a create
    request, and where nothing was bound before, whatever arrives later adds
    nothing to the trace; with an activation pending, in a window or a
    service worker scope, it binds the receiver and sends exactly one create
    request, after consuming the activation where the feature and the
    context make it look at it. *)
Theorem activation_gating_for_download :
  forall (env : Environment) (r : CanCreateTranslatorResult) (w : World),
    RequiresUserActivation r = true ->
    (TranslationAPIV1Enabled env = true ->
     IsServiceWorkerGlobalScope env = false ->
     window env = true ->
     user_activation w = false -> resolver_ w = true ->
     exists w',
       OnGotAvailability env r w = Returned w' /\
       trace w' =
         trace w ++
         [ConsumeTransientUserActivation;
          Reject kNotAllowedError kExceptionMessageUserActivationRequired] /\
       receiver_ w' = receiver_ w /\
       monitor_remote w' = monitor_remote w /\
       (quiescent w -> forall ms, trace (deliver_all ms w') = trace w')) /\
    (window env || IsServiceWorkerGlobalScope env = true ->
     user_activation w = true ->
     exists w',
       OnGotAvailability env r w = Returned w' /\
       trace w' =
         trace w ++
         (if TranslationAPIV1Enabled env
             && negb (IsServiceWorkerGlobalScope env)
          then [ConsumeTransientUserActivation] else []) ++
         binding_calls w /\
       count is_create_request (binding_calls w) = 1%nat /\
       count is_resolver_call (binding_calls w) = 0%nat /\
       receiver_ w' = true).
Proof.
  intros env r w Q. unfold OnGotAvailability. rewrite Q. split.
  - intros F S W A R. rewrite F, S, W. cbn [andb orb negb]. world_simpl.
    rewrite A. world_simpl. rewrite R.
    eexists. split; [reflexivity|].
    split; [world_simpl; rewrite <- List.app_assoc; reflexivity|].
    split; [reflexivity|]. split; [reflexivity|].
    intros Qw ms. apply deliver_all_quiescent. exact Qw.
  - intros Hcheck A. rewrite Hcheck. cbn [negb].
    destruct (count_binding_calls w) as [C1 [C2 _]].
    rewrite andb_true_r.
    destruct (TranslationAPIV1Enabled env
              && negb (IsServiceWorkerGlobalScope env)).
    + world_simpl. rewrite A. world_simpl.
      eexists. split; [reflexivity|].
      destruct (BindAndCreate_fields
                  (set_user_activation false
                     (call ConsumeTransientUserActivation w)))
        as [_ [B _]].
      split.
      { rewrite BindAndCreate_trace. world_simpl.
        rewrite <- List.app_assoc. reflexivity. }
      repeat split; assumption.
    + eexists. split; [reflexivity|].
      destruct (BindAndCreate_fields w) as [_ [B _]].
      split; [apply BindAndCreate_trace|].
      repeat split; assumption.
Qed.

(** C3 (amended).  In a window or a service worker scope, when the
    availability result is [kNoNotSupportedLanguage], [OnGotAvailability]
    looks at no activation, calls the resolver not at all, binds the receiver
    and sends exactly one create request; the resolver, if still present, is
    rejected with NotSupportedError and the fixed unable-to-create message
    when the provider answers that request with an error. *)
Theorem unsupported_language_still_requests_creation :
  forall (env : Environment) (w : World),
    window env || IsServiceWorkerGlobalScope env = true ->
    OnGotAvailability env kNoNotSupportedLanguage w =
      Returned (BindAndCreate w) /\
    trace (BindAndCreate w) = trace w ++ binding_calls w /\
    count is_create_request (binding_calls w) = 1%nat /\
    count is_resolver_call (binding_calls w) = 0%nat /\
    ~ In ConsumeTransientUserActivation (binding_calls w) /\
    (forall e,
       resolver_ w = true ->
       trace (OnResult (error e) (BindAndCreate w)) =
         trace (BindAndCreate w) ++
         [AddConsoleMessage kJavaScript kWarning
            (ConvertCreateTranslatorErrorToDebugString e);
          Reject kNotSupportedError
            kExceptionMessageUnableToCreateTranslator]).
Proof.
  intros env w Hcheck.
  split.
  { apply OnGotAvailability_not_checked; [exact Hcheck|].
    simpl. apply andb_false_r. }
  split; [apply BindAndCreate_trace|].
  destruct (count_binding_calls w) as [C1 [C2 C3]].
  repeat split; auto.
  intros e R. apply OnResult_failure.
  rewrite (proj1 (BindAndCreate_fields w)). exact R.
Qed.

(** C4.  In any lifecycle that has reached a world where the resolver is
    present and the receiver is bound, for a request with a progress
    listener that aborts in neither of the two synthesized events, the
    delivery of a successful creation result adds to the trace the event
    [{0, MAX}], then the event [{MAX, MAX}], then the [Resolve] call with a
    translator made of the received remote and the source language, target
    language and signal of the request; [Cleanup] runs once, and whatever
    arrives afterwards adds nothing to the trace. *)
Theorem successful_creation_frames_progress_and_resolves :
  forall (env : Environment) (lc : Lifecycle) (l : Listener) (remote : nat),
    let MAX := kNormalizedDownloadProgressMax in
    let w := run env lc in
    let w' := deliver w (CreateResult (translator remote)) in
    monitor (request lc) = Some l ->
    l 0%Z MAX = false ->
    l MAX MAX = false ->
    resolver_ w = true ->
    receiver_ w = true ->
    trace w' =
      trace w ++
      [ProgressEvent 0 MAX;
       ProgressEvent MAX MAX;
       Resolve {| translator_remote := remote;
                  translator_source_language := sourceLanguage (request lc);
                  translator_target_language := targetLanguage (request lc);
                  translator_abort_signal := signal (request lc) |}] /\
    cleanups w' = S (cleanups w) /\
    (forall ms, trace (deliver_all ms w') = trace w').
Proof.
  intros env lc l remote MAX w w' M L0 L1 R B.
  destruct (run_holds_request env lc R) as [Hm [Hs [Ht Ha]]].
  fold w in Hm, Hs, Ht, Ha. rewrite M in Hm.
  assert (E : w' = OnResult (translator remote) w)
    by (unfold w'; simpl; rewrite B; reflexivity).
  rewrite E. split; [|split].
  - rewrite (OnResult_success_with_monitor remote l w R Hm L0 L1),
      Hs, Ht, Ha.
    reflexivity.
  - apply OnResult_cleanups.
  - intros ms. apply deliver_all_quiescent, OnResult_quiescent.
Qed.

(** C5.  If the listener aborts while it handles the synthesized start
    event [{0, MAX}] of a successful creation result (resolver present,
    monitor registered), then [OnResult] adds that one event to the trace
    and nothing else: no second progress event and no call on the resolver;
    [Cleanup] runs once, leaving the resolver absent and the receiver
    unbound; and whatever arrives afterwards adds nothing to the trace. *)
Theorem abort_in_start_event_abandons_resolution :
  forall (w : World) (l : Listener) (remote : nat),
    let MAX := kNormalizedDownloadProgressMax in
    let w' := OnResult (translator remote) w in
    resolver_ w = true ->
    monitor_ w = Some l ->
    l 0%Z MAX = true ->
    trace w' = trace w ++ [ProgressEvent 0 MAX] /\
    cleanups w' = S (cleanups w) /\
    resolver_ w' = false /\
    receiver_ w' = false /\
    (forall ms,
       trace (deliver_all ms w') = trace w ++ [ProgressEvent 0 MAX] /\
       cleanups (deliver_all ms w') = S (cleanups w)).
Proof.
  intros w l remote MAX w' R M L0.
  assert (T : trace w' = trace w ++ [ProgressEvent 0 MAX]).
  { unfold w', OnResult, OnResult_body, OnDownloadProgressUpdate, MAX in *.
    rewrite M. repeat first [rewrite R | rewrite L0 | progress cbn].
    reflexivity. }
  assert (C : cleanups w' = S (cleanups w)) by apply OnResult_cleanups.
  destruct (OnResult_quiescent (translator remote) w) as [Q [R' _]].
  fold w' in R', Q.
  repeat split; auto; try apply Q.
  - destruct (deliver_all_quiescent ms w' Q) as [T' _]. rewrite T'. exact T.
  - destruct (deliver_all_quiescent ms w' Q) as [_ C']. rewrite C'. exact C.
Qed.

(** C6.  On an error result, with the resolver present, [OnResult] adds to
    the trace a console message (JavaScript source, warning level) with the
    debug string of the error, then a [Reject] call with NotSupportedError
    and the fixed message "Unable to create translator for the given source
    and target language."; the calls on the resolver are the same whatever
    the error is. *)
Theorem failure_is_logged_and_rejected_with_fixed_message :
  forall (e : CreateTranslatorError) (w : World),
    resolver_ w = true ->
    trace (OnResult (error e) w) =
      trace w ++
      [AddConsoleMessage kJavaScript kWarning
         (ConvertCreateTranslatorErrorToDebugString e);
       Reject kNotSupportedError
         "Unable to create translator for the given source and target language."]
    /\
    (forall e',
       filter is_resolver_call (trace (OnResult (error e') w)) =
       filter is_resolver_call (trace (OnResult (error e) w))).
Proof.
  intros e w R. split.
  - apply OnResult_failure, R.
  - intros e'. rewrite !OnResult_failure by exact R.
    rewrite !List.filter_app. reflexivity.
Qed.

(** C7.  The debug-string conversion is a total function on the eleven
    values of the error enumeration: the listing of the values has length
    eleven, has no repetition and contains every value; each value is mapped
    to a non-empty string; and the strings of [kAcceptLanguagesCheckFailed]
    and [kExceedsLanguagePackCountLimitation] are their own sentence followed
    by [kLinkToDocument], which no other value's string ends with. *)
Theorem debug_string_total_nonempty_with_link :
  List.length all_CreateTranslatorError = 11%nat /\
  NoDup all_CreateTranslatorError /\
  (forall e, In e all_CreateTranslatorError) /\
  (forall e, ConvertCreateTranslatorErrorToDebugString e <> "") /\
  ConvertCreateTranslatorErrorToDebugString kAcceptLanguagesCheckFailed =
    ("The preferred languages check for Translator API failed. " ++
     kLinkToDocument)%string /\
  ConvertCreateTranslatorErrorToDebugString
    kExceedsLanguagePackCountLimitation =
    ("The Translator API language pack count exceeded the limitation. " ++
     kLinkToDocument)%string /\
  (forall e,
     ends_with kLinkToDocument (ConvertCreateTranslatorErrorToDebugString e)
       = true <->
     e = kAcceptLanguagesCheckFailed \/
     e = kExceedsLanguagePackCountLimitation).
Proof.
  split; [reflexivity|].
  split.
  { unfold all_CreateTranslatorError.
    repeat (constructor; [simpl; intuition discriminate|]).
    constructor. }
  split; [intros e; destruct e; simpl; tauto|].
  split; [intros e; destruct e; vm_compute; discriminate|].
  split; [reflexivity|].
  split; [reflexivity|].
  intros e; split.
  - destruct e; vm_compute; intros H; try discriminate H; auto.
  - intros [-> | ->]; vm_compute; reflexivity.
Qed.

(** C8.  The activation classification is a total boolean function on the
    availability result: it answers [true] exactly on the four variants for
    which a download is still needed and [false] exactly on the ready variant
    and the six blocked ones, and every variant is of one of the two kinds. *)
Theorem requires_user_activation_classification :
  forall r : CanCreateTranslatorResult,
    (download_still_needed r \/ ready_or_blocked r) /\
    (RequiresUserActivation r = true <-> download_still_needed r) /\
    (RequiresUserActivation r = false <-> ready_or_blocked r).
Proof.
  unfold download_still_needed, ready_or_blocked.
  intros r; destruct r; simpl;
    (split; [tauto|]);
    (split; split; intros H; try reflexivity; try discriminate H;
     try tauto;
     repeat (destruct H as [H | H]; try discriminate H); try discriminate H).
Qed.

(** C9.  In a window or a service worker scope, what [OnGotAvailability]
    adds to the trace holds a [ConsumeTransientUserActivation] call only if
    the TranslationAPIV1 feature is enabled, the context is no service worker
    scope and the availability result requires activation, and a [Reject]
    call only under the same condition.  When the feature is disabled, or the
    context is a service worker scope, then for every availability result
    the callback returns after the calls of [BindAndCreate] alone: the
    receiver is bound, one create request is sent, the pending activation is
    left as it was and the resolver is not called. *)
Theorem activation_check_needs_feature_and_window :
  forall (env : Environment) (r : CanCreateTranslatorResult) (w : World),
    window env || IsServiceWorkerGlobalScope env = true ->
    (exists added,
       trace (world_of (OnGotAvailability env r w)) = trace w ++ added /\
       (In ConsumeTransientUserActivation added <->
        activation_checked env r) /\
       ((count is_resolver_call added > 0)%nat ->
        activation_checked env r)) /\
    (TranslationAPIV1Enabled env = false \/
     IsServiceWorkerGlobalScope env = true ->
     OnGotAvailability env r w = Returned (BindAndCreate w) /\
     trace (BindAndCreate w) = trace w ++ binding_calls w /\
     count is_create_request (binding_calls w) = 1%nat /\
     count is_resolver_call (binding_calls w) = 0%nat /\
     ~ In ConsumeTransientUserActivation (binding_calls w) /\
     receiver_ (BindAndCreate w) = true /\
     user_activation (BindAndCreate w) = user_activation w).
Proof.
  intros env r w Hcheck. split.
  - unfold activation_checked.
    destruct (TranslationAPIV1Enabled env
              && negb (IsServiceWorkerGlobalScope env)
              && RequiresUserActivation r) eqn:Hcond.
    + assert (A : TranslationAPIV1Enabled env = true /\
                  IsServiceWorkerGlobalScope env = false /\
                  RequiresUserActivation r = true).
      { apply andb_prop in Hcond. destruct Hcond as [Hc R].
        apply andb_prop in Hc. destruct Hc as [F S].
        apply negb_true_iff in S. auto. }
      unfold OnGotAvailability. rewrite Hcheck, Hcond. simpl.
      destruct (user_activation w); simpl.
      * exists (ConsumeTransientUserActivation ::
                binding_calls
                  (snd (LocalFrame_ConsumeTransientUserActivation w))).
        split.
        { rewrite BindAndCreate_trace. simpl.
          rewrite <- List.app_assoc. reflexivity. }
        split; [split; [intros _; exact A|intros _; left; reflexivity]|].
        intros _. exact A.
      * destruct (resolver_ w); simpl.
        { eexists. split; [rewrite <- List.app_assoc; reflexivity|].
          split; [split; [intros _; exact A|intros _; left; reflexivity]|].
          intros _. exact A. }
        { eexists. split; [reflexivity|].
          split; [split; [intros _; exact A|intros _; left; reflexivity]|].
          intros _. exact A. }
    + rewrite (OnGotAvailability_not_checked env r w Hcheck Hcond). simpl.
      exists (binding_calls w).
      destruct (count_binding_calls w) as [_ [C2 C3]].
      split; [apply BindAndCreate_trace|].
      split; [split; [intros H; contradiction|]|].
      * intros [F [S R]]. rewrite F, S, R in Hcond. discriminate Hcond.
      * rewrite C2. intros H. inversion H.
  - intros Hoff.
    assert (Hcond : TranslationAPIV1Enabled env
                    && negb (IsServiceWorkerGlobalScope env)
                    && RequiresUserActivation r = false).
    { destruct Hoff as [F | S]; [rewrite F|rewrite S]; simpl;
        [reflexivity|]. rewrite andb_false_r. reflexivity. }
    destruct (count_binding_calls w) as [C1 [C2 C3]].
    split; [apply OnGotAvailability_not_checked; assumption|].
    split; [apply BindAndCreate_trace|].
    destruct (BindAndCreate_fields w) as [_ [B [U _]]].
    repeat split; auto.
Qed.

(** C10.  When a creation result arrives and the resolver is absent,
    [OnResult] adds nothing to the trace, whatever the result is: no console
    message, no progress event, no call on the resolver.  [Cleanup] runs
    once, after which the receiver is unbound, the monitor is released and
    the resolver is still absent. *)
Theorem result_without_resolver_only_cleans_up :
  forall (r : CreateTranslatorResult) (w : World),
    resolver_ w = false ->
    trace (OnResult r w) = trace w /\
    cleanups (OnResult r w) = S (cleanups w) /\
    receiver_ (OnResult r w) = false /\
    monitor_ (OnResult r w) = None /\
    resolver_ (OnResult r w) = false.
Proof.
  intros r w R. unfold OnResult, OnResult_body. rewrite R. simpl.
  repeat split.
Qed.

(** ** Further properties of the client *)

Lemma OnGotAvailability_not_refused :
  forall env r w,
    window env || IsServiceWorkerGlobalScope env = true ->
    (checks_activation env r = true -> user_activation w = true) ->
    exists w',
      OnGotAvailability env r w = Returned w' /\
      trace w' =
        trace w ++
        (if checks_activation env r
         then [ConsumeTransientUserActivation] else []) ++
        binding_calls w.
Proof.
  intros env r w Hcheck Hact. unfold OnGotAvailability.
  rewrite Hcheck. cbn [negb]. fold (checks_activation env r).
  destruct (checks_activation env r).
  - world_simpl. rewrite (Hact eq_refl). world_simpl.
    eexists. split; [reflexivity|].
    rewrite BindAndCreate_trace. world_simpl.
    rewrite <- List.app_assoc. reflexivity.
  - eexists. split; [reflexivity|]. apply BindAndCreate_trace.
Qed.

(** X1.  Two different errors have different debug strings: the console
    message tells which error it was. *)
Theorem debug_strings_are_distinct :
  forall e1 e2 : CreateTranslatorError,
    e1 <> e2 ->
    ConvertCreateTranslatorErrorToDebugString e1 <>
    ConvertCreateTranslatorErrorToDebugString e2.
Proof.
  intros e1 e2 Hne Heq. apply Hne. clear Hne.
  destruct e1, e2; try reflexivity; vm_compute in Heq; discriminate Heq.
Qed.

(** X2.  Whatever the world and the listener, [OnResult] adds to the trace
    one of six sequences of calls.  For an error: nothing, or the console
    message and the rejection.  For a translator: nothing, the resolution
    alone, the start event alone, the start and the completion event, or
    both events and the resolution.  So an error never resolves and never
    reaches the listener, a translator never rejects and never logs, and
    there is no completion event without the start event before it. *)
Theorem result_adds_one_of_six_call_sequences :
  forall (r : CreateTranslatorResult) (w : World),
    exists added,
      trace (OnResult r w) = trace w ++ added /\
      match r with
      | error e =>
          added = [] \/
          added =
            [AddConsoleMessage kJavaScript kWarning
               (ConvertCreateTranslatorErrorToDebugString e);
             Reject kNotSupportedError
               kExceptionMessageUnableToCreateTranslator]
      | translator remote =>
          let MAX := kNormalizedDownloadProgressMax in
          let t := {| translator_remote := remote;
                      translator_source_language := source_language_ w;
                      translator_target_language := target_language_ w;
                      translator_abort_signal := abort_signal_ w |} in
          added = [] \/
          added = [Resolve t] \/
          added = [ProgressEvent 0 MAX] \/
          added = [ProgressEvent 0 MAX; ProgressEvent MAX MAX] \/
          added = [ProgressEvent 0 MAX; ProgressEvent MAX MAX; Resolve t]
      end.
Proof.
  intros r w.
  assert (T : trace (OnResult r w) = trace (OnResult_body r w))
    by apply Cleanup_spec.
  rewrite T. unfold OnResult_body.
  destruct (resolver_ w) eqn:R; cbn [negb].
  2:{ exists []. rewrite app_nil_r. split; [reflexivity|].
      destruct r; cbv zeta; auto. }
  destruct r as [remote | e].
  - cbv zeta. set (M := kNormalizedDownloadProgressMax).
    destruct (monitor_ w) as [l|].
    + destruct (OnDownloadProgressUpdate_fields l 0 M w)
        as [_ [_ [_ [S1 [T1 [A1 _]]]]]].
      pose proof (OnDownloadProgressUpdate_trace l 0 M w) as E1.
      rewrite R in E1.
      set (w1 := OnDownloadProgressUpdate l 0 M w) in *.
      destruct (resolver_ w1) eqn:R1; cbn [negb].
      * destruct (OnDownloadProgressUpdate_fields l M M w1)
          as [_ [_ [_ [S2 [T2 [A2 _]]]]]].
        pose proof (OnDownloadProgressUpdate_trace l M M w1) as E2.
        rewrite R1, E1, <- List.app_assoc in E2.
        set (w2 := OnDownloadProgressUpdate l M M w1) in *.
        destruct (resolver_ w2) eqn:R2; cbn [negb].
        -- eexists. split.
           ++ unfold ResolveWithTranslator. world_simpl.
              rewrite E2, <- List.app_assoc. reflexivity.
           ++ rewrite S2, T2, A2, S1, T1, A1. cbn [app]. auto 6.
        -- eexists. split; [exact E2|]. cbn [app]. auto 6.
      * eexists. split; [exact E1|]. auto 6.
    + eexists. split; [unfold ResolveWithTranslator; world_simpl;
                       reflexivity|].
      auto.
  - eexists. split; [world_simpl; rewrite <- List.app_assoc; reflexivity|].
    auto.
Qed.

(** X3.  Complement of the abort in the start event: if the listener lets
    the start event pass and aborts while it handles the completion event,
    [OnResult] has delivered both events and does not resolve. *)
Theorem abort_in_completion_event_abandons_resolution :
  forall (w : World) (l : Listener) (remote : nat),
    let MAX := kNormalizedDownloadProgressMax in
    resolver_ w = true ->
    monitor_ w = Some l ->
    l 0%Z MAX = false ->
    l MAX MAX = true ->
    trace (OnResult (translator remote) w) =
      trace w ++ [ProgressEvent 0 MAX; ProgressEvent MAX MAX] /\
    count is_resolver_call (trace (OnResult (translator remote) w)) =
      count is_resolver_call (trace w) /\
    cleanups (OnResult (translator remote) w) = S (cleanups w).
Proof.
  intros w l remote MAX R M L0 L1.
  assert (T : trace (OnResult (translator remote) w) =
              trace w ++ [ProgressEvent 0 MAX; ProgressEvent MAX MAX]).
  { unfold OnResult, OnResult_body, OnDownloadProgressUpdate, MAX in *.
    rewrite M.
    repeat first [rewrite R | rewrite L0 | rewrite L1 | progress cbn].
    rewrite <- List.app_assoc. reflexivity. }
  split; [exact T|]. split; [|apply OnResult_cleanups].
  rewrite T, count_app. unfold count at 2. cbn. lia.
Qed.

(** X4.  Without a monitor a successful result is resolved at once: the
    trace gains the resolution, with the languages and the signal the client
    holds, and no progress event. *)
Theorem success_without_monitor_resolves_directly :
  forall (w : World) (remote : nat),
    resolver_ w = true ->
    monitor_ w = None ->
    trace (OnResult (translator remote) w) =
      trace w ++
      [Resolve {| translator_remote := remote;
                  translator_source_language := source_language_ w;
                  translator_target_language := target_language_ w;
                  translator_abort_signal := abort_signal_ w |}] /\
    count is_progress_event (trace (OnResult (translator remote) w)) =
      count is_progress_event (trace w).
Proof.
  intros w remote R M.
  assert (T : trace (OnResult (translator remote) w) =
              trace w ++
              [Resolve {| translator_remote := remote;
                          translator_source_language := source_language_ w;
                          translator_target_language := target_language_ w;
                          translator_abort_signal := abort_signal_ w |}]).
  { unfold OnResult, OnResult_body. rewrite R, M. reflexivity. }
  split; [exact T|].
  rewrite T, count_app. unfold count at 2. cbn. lia.
Qed.

(** X5.  In a context that is neither a window nor a service worker scope
    the [CHECK] of [OnGotAvailability] fails before anything else is done:
    the world is as it was, and the trace of every lifecycle holds the calls
    of the constructor alone. *)
Theorem availability_outside_window_and_worker_is_fatal :
  forall (env : Environment),
    window env = false ->
    IsServiceWorkerGlobalScope env = false ->
    (forall r w, OnGotAvailability env r w = Crashed CheckFailed w) /\
    (forall lc, trace (run env lc) = constructor_calls (request lc)).
Proof.
  intros env W S.
  assert (C : forall r w, OnGotAvailability env r w = Crashed CheckFailed w).
  { intros r w. unfold OnGotAvailability. rewrite W, S. reflexivity. }
  split; [exact C|].
  intros lc. unfold run. rewrite C.
  destruct (aborted_early lc); reflexivity.
Qed.

(** X6.  [OnGotAvailability] tests the resolver nowhere.  When the
    activation is looked at and none is pending while the resolver is
    absent, the rejection is called on a null resolver: the activation has
    been asked for, nothing is bound and nothing is sent. *)
Theorem rejection_on_absent_resolver_dereferences_null :
  forall (env : Environment) (r : CanCreateTranslatorResult) (w : World),
    window env = true ->
    checks_activation env r = true ->
    user_activation w = false ->
    resolver_ w = false ->
    exists w',
      OnGotAvailability env r w = Crashed NullDereference w' /\
      trace w' = trace w ++ [ConsumeTransientUserActivation] /\
      receiver_ w' = receiver_ w /\ resolver_ w' = false.
Proof.
  intros env r w W C A R. unfold OnGotAvailability.
  unfold checks_activation in C. rewrite W, C. cbn [orb negb].
  world_simpl. rewrite A. world_simpl. rewrite R.
  eexists. split; [reflexivity|]. world_simpl. auto.
Qed.

(** X7.  When the resolver is already absent and the activation is not
    refused, [OnGotAvailability] still binds the receiver and sends the
    create request; the result that answers it then adds nothing to the
    trace. *)
Theorem aborted_request_is_still_sent :
  forall (env : Environment) (r : CanCreateTranslatorResult) (w : World),
    window env || IsServiceWorkerGlobalScope env = true ->
    (checks_activation env r = true -> user_activation w = true) ->
    resolver_ w = false ->
    exists w',
      OnGotAvailability env r w = Returned w' /\
      trace w' =
        trace w ++
        (if checks_activation env r
         then [ConsumeTransientUserActivation] else []) ++
        binding_calls w /\
      count is_create_request (binding_calls w) = 1%nat /\
      receiver_ w' = true /\
      (forall r', trace (OnResult r' w') = trace w' /\
                  receiver_ (OnResult r' w') = false).
Proof.
  intros env r w Hcheck Hact R. unfold OnGotAvailability.
  rewrite Hcheck. cbn [negb]. fold (checks_activation env r).
  destruct (count_binding_calls w) as [C1 _].
  assert (Silent : forall w',
            resolver_ w' = false ->
            forall r', trace (OnResult r' w') = trace w' /\
                       receiver_ (OnResult r' w') = false).
  { intros w' R' r'. unfold OnResult, OnResult_body. rewrite R'.
    split; reflexivity. }
  destruct (checks_activation env r).
  - world_simpl. rewrite (Hact eq_refl). world_simpl.
    eexists. split; [reflexivity|].
    destruct (BindAndCreate_fields
                (set_user_activation false
                   (call ConsumeTransientUserActivation w)))
      as [R' [B _]].
    split.
    { rewrite BindAndCreate_trace. world_simpl.
      rewrite <- List.app_assoc. reflexivity. }
    split; [exact C1|]. split; [exact B|].
    apply Silent. rewrite R'. exact R.
  - eexists. split; [reflexivity|].
    destruct (BindAndCreate_fields w) as [R' [B _]].
    split; [apply BindAndCreate_trace|].
    split; [exact C1|]. split; [exact B|].
    apply Silent. rewrite R'. exact R.
Qed.

(** X8.  From the constructor to the create request: for a new client, in a
    window or a service worker scope and with the activation not refused,
    the calls are, in this order, the monitor callback if the request has a
    monitor, the consumption of the activation if it is looked at, the
    binding of the receiver, the binding of the monitor's remote if there is
    a monitor, and one create request that carries the two languages of the
    request and a progress observer exactly if there is a monitor. *)
Theorem new_request_calls_up_to_create_request :
  forall (env : Environment) (r : CanCreateTranslatorResult)
         (options : TranslatorCreateOptions) (act : bool),
    window env || IsServiceWorkerGlobalScope env = true ->
    (checks_activation env r = true -> act = true) ->
    exists w',
      OnGotAvailability env r (CreateTranslatorClient_new options act) =
        Returned w' /\
      trace w' =
        constructor_calls options ++
        (if checks_activation env r
         then [ConsumeTransientUserActivation] else []) ++
        [ReceiverBind] ++
        (match monitor options with
         | Some _ => [MonitorBindRemote]
         | None => []
         end) ++
        [CreateTranslator (sourceLanguage options) (targetLanguage options)
           (match monitor options with Some _ => true | None => false end)].
Proof.
  intros env r options act Hcheck Hact.
  destruct (OnGotAvailability_not_refused env r
              (CreateTranslatorClient_new options act) Hcheck Hact)
    as [w' [E T]].
  exists w'. split; [exact E|]. rewrite T.
  unfold binding_calls, constructor_calls. cbn.
  destruct (monitor options); reflexivity.
Qed.

End Client.

(** ** The statements at sample inputs

    The constants of [ai_utils.h] are set to [sample_max] and
    [sample_activation_message]. *)

(** Against C1 as stated: after the rejection for a missing activation,
    which is the first call on the resolver, the resolver is still present
    and no [Cleanup] has run; a creation result handed to [OnResult] in that
    world is rejected too, which makes two calls on the resolver. *)
Lemma activation_rejection_leaves_resolver_present :
  let w := CreateTranslatorClient_new (en_to_fr None) false in
  exists w',
    OnGotAvailability sample_activation_message window_with_feature
      kAfterDownloadLibraryNotReady w = Returned w' /\
    trace w' =
      [ConsumeTransientUserActivation;
       Reject kNotAllowedError sample_activation_message] /\
    resolver_ w' = true /\
    cleanups w' = 0%nat /\
    trace (OnResult sample_max (error kServiceCrashed) w') =
      [ConsumeTransientUserActivation;
       Reject kNotAllowedError sample_activation_message;
       AddConsoleMessage kJavaScript kWarning
         "The translation service crashed.";
       Reject kNotSupportedError
         kExceptionMessageUnableToCreateTranslator] /\
    count is_resolver_call
      (trace (OnResult sample_max (error kServiceCrashed) w')) = 2%nat.
Proof.
  cbv zeta. eexists. repeat split.
Qed.

(** Against C2 as stated: the availability result requires a download and
    no activation is pending, yet in a window where the TranslationAPIV1
    feature is disabled [OnGotAvailability] consumes nothing, rejects
    nothing, binds the receiver and sends a create request. *)
Lemma download_without_activation_still_requests_creation :
  let w := CreateTranslatorClient_new (en_to_fr None) false in
  RequiresUserActivation kAfterDownloadLibraryNotReady = true /\
  user_activation w = false /\
  resolver_ w = true /\
  exists w',
    OnGotAvailability sample_activation_message window_without_feature
      kAfterDownloadLibraryNotReady w = Returned w' /\
    trace w' = [ReceiverBind; CreateTranslator "en" "fr" false] /\
    count is_create_request (trace w') = 1%nat /\
    count is_resolver_call (trace w') = 0%nat /\
    receiver_ w' = true.
Proof.
  cbv zeta. repeat split. eexists. repeat split.
Qed.

(** Against C3 as stated: for the availability result
    [kNoNotSupportedLanguage], in a window with the feature enabled,
    [OnGotAvailability] rejects nothing, binds the receiver and sends a
    create request for the pair "en", "xx". *)
Lemma unsupported_language_create_request_sent :
  let w := CreateTranslatorClient_new en_to_xx false in
  exists w',
    OnGotAvailability sample_activation_message window_with_feature
      kNoNotSupportedLanguage w = Returned w' /\
    trace w' = [ReceiverBind; CreateTranslator "en" "xx" false] /\
    count is_create_request (trace w') = 1%nat /\
    count is_resolver_call (trace w') = 0%nat.
Proof.
  cbv zeta. eexists. repeat split.
Qed.

Lemma activation_gating_for_download_witness :
  (exists w',
     OnGotAvailability sample_activation_message window_with_feature
       kAfterDownloadTranslatorCreationRequired
       (CreateTranslatorClient_new (en_to_fr None) false) = Returned w' /\
     trace w' =
       [ConsumeTransientUserActivation;
        Reject kNotAllowedError sample_activation_message] /\
     receiver_ w' = false /\
     monitor_remote w' = false /\
     (forall ms, trace (deliver_all sample_max ms w') = trace w')) /\
  (exists w',
     OnGotAvailability sample_activation_message window_with_feature
       kAfterDownloadTranslatorCreationRequired
       (CreateTranslatorClient_new (en_to_fr None) true) = Returned w' /\
     trace w' =
       [ConsumeTransientUserActivation; ReceiverBind;
        CreateTranslator "en" "fr" false] /\
     count is_create_request
       [ReceiverBind; CreateTranslator "en" "fr" false] = 1%nat /\
     count is_resolver_call
       [ReceiverBind; CreateTranslator "en" "fr" false] = 0%nat /\
     receiver_ w' = true).
Proof.
  split.
  - destruct (proj1 (activation_gating_for_download
                       sample_max sample_activation_message
                       window_with_feature
                       kAfterDownloadTranslatorCreationRequired
                       (CreateTranslatorClient_new (en_to_fr None) false)
                       eq_refl)
                eq_refl eq_refl eq_refl eq_refl eq_refl)
      as [w' [E [T [B [M Q]]]]].
    exists w'. repeat split; try assumption.
    apply Q. split; reflexivity.
  - apply (proj2 (activation_gating_for_download
                    sample_max sample_activation_message
                    window_with_feature
                    kAfterDownloadTranslatorCreationRequired
                    (CreateTranslatorClient_new (en_to_fr None) true)
                    eq_refl));
      reflexivity.
Defined.

Lemma unsupported_language_still_requests_creation_witness :
  let w := CreateTranslatorClient_new en_to_xx false in
  OnGotAvailability sample_activation_message window_with_feature
    kNoNotSupportedLanguage w = Returned (BindAndCreate w) /\
  trace (BindAndCreate w) = trace w ++ binding_calls w /\
  count is_create_request (binding_calls w) = 1%nat /\
  count is_resolver_call (binding_calls w) = 0%nat /\
  ~ In ConsumeTransientUserActivation (binding_calls w) /\
  (forall e,
     resolver_ w = true ->
     trace (OnResult sample_max (error e) (BindAndCreate w)) =
       trace (BindAndCreate w) ++
       [AddConsoleMessage kJavaScript kWarning
          (ConvertCreateTranslatorErrorToDebugString e);
        Reject kNotSupportedError kExceptionMessageUnableToCreateTranslator]).
Proof.
  apply (unsupported_language_still_requests_creation sample_max
           sample_activation_message window_with_feature
           (CreateTranslatorClient_new en_to_xx false)).
  reflexivity.
Defined.

Lemma successful_creation_frames_progress_and_resolves_witness :
  let lc := {| request := en_to_fr (Some quiet_listener);
               activation := false;
               aborted_early := false;
               availability := kReadily;
               messages := [DownloadProgress 1 2] |} in
  let w := run sample_max sample_activation_message window_with_feature lc in
  let w' := deliver sample_max w (CreateResult (translator 7)) in
  trace w' =
    trace w ++
    [ProgressEvent 0 sample_max;
     ProgressEvent sample_max sample_max;
     Resolve {| translator_remote := 7;
                translator_source_language := "en";
                translator_target_language := "fr";
                translator_abort_signal := Some 1%nat |}] /\
  cleanups w' = S (cleanups w) /\
  (forall ms, trace (deliver_all sample_max ms w') = trace w').
Proof.
  apply (successful_creation_frames_progress_and_resolves sample_max
           sample_activation_message window_with_feature
           {| request := en_to_fr (Some quiet_listener);
              activation := false;
              aborted_early := false;
              availability := kReadily;
              messages := [DownloadProgress 1 2] |}
           quiet_listener 7);
    reflexivity.
Defined.

Lemma abort_in_start_event_abandons_resolution_witness :
  let w :=
    BindAndCreate
      (CreateTranslatorClient_new (en_to_fr (Some aborting_listener)) false) in
  let w' := OnResult sample_max (translator 7) w in
  trace w' = trace w ++ [ProgressEvent 0 sample_max] /\
  cleanups w' = S (cleanups w) /\
  resolver_ w' = false /\
  receiver_ w' = false /\
  (forall ms,
     trace (deliver_all sample_max ms w') =
       trace w ++ [ProgressEvent 0 sample_max] /\
     cleanups (deliver_all sample_max ms w') = S (cleanups w)).
Proof.
  apply (abort_in_start_event_abandons_resolution sample_max
           (BindAndCreate
              (CreateTranslatorClient_new
                 (en_to_fr (Some aborting_listener)) false))
           aborting_listener 7);
    reflexivity.
Defined.

Lemma failure_is_logged_and_rejected_with_fixed_message_witness :
  let w := BindAndCreate (CreateTranslatorClient_new en_to_xx false) in
  trace (OnResult sample_max (error kServiceCrashed) w) =
    trace w ++
    [AddConsoleMessage kJavaScript kWarning
       "The translation service crashed.";
     Reject kNotSupportedError
       "Unable to create translator for the given source and target language."]
  /\
  (forall e',
     filter is_resolver_call (trace (OnResult sample_max (error e') w)) =
     filter is_resolver_call
       (trace (OnResult sample_max (error kServiceCrashed) w))).
Proof.
  apply (failure_is_logged_and_rejected_with_fixed_message sample_max
           kServiceCrashed
           (BindAndCreate (CreateTranslatorClient_new en_to_xx false))).
  reflexivity.
Defined.

Lemma activation_check_needs_feature_and_window_witness :
  let w := CreateTranslatorClient_new (en_to_fr None) true in
  let r := kAfterDownloadLanguagePackNotReady in
  (OnGotAvailability sample_activation_message window_without_feature r w =
     Returned (BindAndCreate w) /\
   trace (BindAndCreate w) = trace w ++ binding_calls w /\
   count is_create_request (binding_calls w) = 1%nat /\
   count is_resolver_call (binding_calls w) = 0%nat /\
   ~ In ConsumeTransientUserActivation (binding_calls w) /\
   receiver_ (BindAndCreate w) = true /\
   user_activation (BindAndCreate w) = user_activation w) /\
  (OnGotAvailability sample_activation_message service_worker_with_feature
     r w = Returned (BindAndCreate w)).
Proof.
  split.
  - apply (activation_check_needs_feature_and_window
             sample_activation_message window_without_feature
             kAfterDownloadLanguagePackNotReady
             (CreateTranslatorClient_new (en_to_fr None) true));
      [reflexivity|left; reflexivity].
  - apply (activation_check_needs_feature_and_window
             sample_activation_message service_worker_with_feature
             kAfterDownloadLanguagePackNotReady
             (CreateTranslatorClient_new (en_to_fr None) true));
      [reflexivity|right; reflexivity].
Defined.

Lemma result_without_resolver_only_cleans_up_witness :
  let w :=
    Abort (BindAndCreate
             (CreateTranslatorClient_new (en_to_fr (Some quiet_listener))
                false)) in
  let w' := OnResult sample_max (error kInvalidBinary) w in
  trace w' = trace w /\
  cleanups w' = S (cleanups w) /\
  receiver_ w' = false /\
  monitor_ w' = None /\
  resolver_ w' = false.
Proof.
  apply (result_without_resolver_only_cleans_up sample_max
           (error kInvalidBinary)
           (Abort (BindAndCreate
                     (CreateTranslatorClient_new
                        (en_to_fr (Some quiet_listener)) false)))).
  reflexivity.
Defined.

(** ** The further properties at sample inputs *)

Lemma debug_strings_are_distinct_witness :
  ConvertCreateTranslatorErrorToDebugString kAcceptLanguagesCheckFailed <>
  ConvertCreateTranslatorErrorToDebugString
    kExceedsLanguagePackCountLimitation.
Proof.
  apply (debug_strings_are_distinct kAcceptLanguagesCheckFailed
           kExceedsLanguagePackCountLimitation).
  discriminate.
Defined.

Lemma abort_in_completion_event_abandons_resolution_witness :
  let w :=
    BindAndCreate
      (CreateTranslatorClient_new
         (en_to_fr (Some aborting_at_completion)) false) in
  trace (OnResult sample_max (translator 7) w) =
    trace w ++
    [ProgressEvent 0 sample_max; ProgressEvent sample_max sample_max] /\
  count is_resolver_call (trace (OnResult sample_max (translator 7) w)) =
    count is_resolver_call (trace w) /\
  cleanups (OnResult sample_max (translator 7) w) = S (cleanups w).
Proof.
  apply (abort_in_completion_event_abandons_resolution sample_max
           (BindAndCreate
              (CreateTranslatorClient_new
                 (en_to_fr (Some aborting_at_completion)) false))
           aborting_at_completion 7);
    reflexivity.
Defined.

Lemma success_without_monitor_resolves_directly_witness :
  let w := BindAndCreate (CreateTranslatorClient_new (en_to_fr None) false) in
  trace (OnResult sample_max (translator 7) w) =
    trace w ++
    [Resolve {| translator_remote := 7;
                translator_source_language := "en";
                translator_target_language := "fr";
                translator_abort_signal := Some 1%nat |}] /\
  count is_progress_event (trace (OnResult sample_max (translator 7) w)) =
    count is_progress_event (trace w).
Proof.
  apply (success_without_monitor_resolves_directly sample_max
           (BindAndCreate (CreateTranslatorClient_new (en_to_fr None) false))
           7);
    reflexivity.
Defined.

Lemma availability_outside_window_and_worker_is_fatal_witness :
  (forall r w,
     OnGotAvailability sample_activation_message neither_window_nor_worker
       r w = Crashed CheckFailed w) /\
  (forall lc,
     trace (run sample_max sample_activation_message
              neither_window_nor_worker lc) =
       constructor_calls (request lc)).
Proof.
  apply (availability_outside_window_and_worker_is_fatal sample_max
           sample_activation_message neither_window_nor_worker);
    reflexivity.
Defined.

Lemma rejection_on_absent_resolver_dereferences_null_witness :
  let w := Abort (CreateTranslatorClient_new (en_to_fr None) false) in
  exists w',
    OnGotAvailability sample_activation_message window_with_feature
      kAfterDownloadLibraryNotReady w = Crashed NullDereference w' /\
    trace w' = trace w ++ [ConsumeTransientUserActivation] /\
    receiver_ w' = receiver_ w /\ resolver_ w' = false.
Proof.
  apply (rejection_on_absent_resolver_dereferences_null
           sample_activation_message window_with_feature
           kAfterDownloadLibraryNotReady
           (Abort (CreateTranslatorClient_new (en_to_fr None) false)));
    reflexivity.
Defined.

Lemma aborted_request_is_still_sent_witness :
  let w := Abort (CreateTranslatorClient_new (en_to_fr None) true) in
  exists w',
    OnGotAvailability sample_activation_message window_with_feature
      kAfterDownloadLibraryNotReady w = Returned w' /\
    trace w' =
      trace w ++ [ConsumeTransientUserActivation] ++ binding_calls w /\
    count is_create_request (binding_calls w) = 1%nat /\
    receiver_ w' = true /\
    (forall r', trace (OnResult sample_max r' w') = trace w' /\
                receiver_ (OnResult sample_max r' w') = false).
Proof.
  apply (aborted_request_is_still_sent sample_max sample_activation_message
           window_with_feature kAfterDownloadLibraryNotReady
           (Abort (CreateTranslatorClient_new (en_to_fr None) true)));
    reflexivity.
Defined.

Lemma new_request_calls_up_to_create_request_witness :
  exists w',
    OnGotAvailability sample_activation_message window_with_feature
      kAfterDownloadLanguagePackNotReady
      (CreateTranslatorClient_new (en_to_fr (Some quiet_listener)) true) =
      Returned w' /\
    trace w' =
      [InvokeMonitorCallback; ConsumeTransientUserActivation; ReceiverBind;
       MonitorBindRemote; CreateTranslator "en" "fr" true].
Proof.
  apply (new_request_calls_up_to_create_request sample_activation_message
           window_with_feature kAfterDownloadLanguagePackNotReady
           (en_to_fr (Some quiet_listener)) true);
    reflexivity.
Defined.

Lemma rejection_for_missing_activation_keeps_resolver_witness :
  let w := CreateTranslatorClient_new (en_to_fr None) false in
  exists w',
    OnGotAvailability sample_activation_message window_with_feature
      kAfterDownloadLibraryNotReady w = Returned w' /\
    resolver_ w' = true /\ cleanups w' = cleanups w /\
    receiver_ w' = receiver_ w.
Proof.
  apply (rejection_for_missing_activation_keeps_resolver
           sample_activation_message window_with_feature
           kAfterDownloadLibraryNotReady
           (CreateTranslatorClient_new (en_to_fr None) false));
    [reflexivity|repeat split|reflexivity|reflexivity].
Defined.

(** ** Properties of the audio processing layout *)

(** *** Bits of the effect masks *)

Lemma testbit_clear_effect :
  forall mask effects n,
    (0 <= n)%Z ->
    Z.testbit (clear_effect mask effects) n =
      Z.testbit effects n && negb (Z.testbit mask n).
Proof.
  intros mask effects n Hn. unfold clear_effect.
  rewrite Z.land_spec, Z.lnot_spec by exact Hn. reflexivity.
Qed.

Lemma testbit_set_effect :
  forall mask effects n,
    Z.testbit (set_effect mask effects) n =
      Z.testbit effects n || Z.testbit mask n.
Proof. intros mask effects n. unfold set_effect. apply Z.lor_spec. Qed.

Lemma disjoint_bit :
  forall a b n,
    Z.land a b = 0%Z -> Z.testbit a n = true -> Z.testbit b n = false.
Proof.
  intros a b n H Ha.
  assert (E : Z.testbit (Z.land a b) n = false)
    by (rewrite H; apply Z.bits_0).
  rewrite Z.land_spec, Ha in E. exact E.
Qed.

Lemma has_effect_false_iff :
  forall effects mask,
    has_effect effects mask = false <-> Z.land effects mask = 0%Z.
Proof.
  intros effects mask. unfold has_effect.
  rewrite negb_false_iff. apply Z.eqb_eq.
Qed.

Lemma land_bits_eq :
  forall a b m,
    (forall n, (0 <= n)%Z -> Z.testbit m n = true ->
               Z.testbit a n = Z.testbit b n) ->
    Z.land a m = Z.land b m.
Proof.
  intros a b m H. apply Z.bits_inj'. intros n Hn.
  rewrite !Z.land_spec.
  destruct (Z.testbit m n) eqn:M; [rewrite (H n Hn M); reflexivity|].
  rewrite !andb_false_r. reflexivity.
Qed.

Lemma land_bits_zero :
  forall a m,
    (forall n, (0 <= n)%Z -> Z.testbit m n = true ->
               Z.testbit a n = false) ->
    Z.land a m = 0%Z.
Proof.
  intros a m H. rewrite <- (Z.land_0_l m). apply land_bits_eq.
  intros n Hn M. rewrite Z.bits_0. apply H; assumption.
Qed.

Ltac effect_bits Hn :=
  repeat first
    [ rewrite testbit_set_effect
    | rewrite (testbit_clear_effect _ _ _ Hn) ].

(** The bits that the first part leaves: bits of the available effects. *)
Lemma EffectsForEchoCancellation_bit :
  forall p properties available n,
    (0 <= n)%Z ->
    Z.testbit (EffectsForEchoCancellation p properties available) n = true ->
    Z.testbit available n = true.
Proof.
  intros p properties available n Hn.
  unfold EffectsForEchoCancellation. cbv zeta.
  destruct (is_system _), (IS_WIN p), (noise_suppression properties),
    (auto_gain_control properties), (IsIndependentSystemNsAllowed p);
    cbn [negb]; effect_bits Hn;
    destruct (Z.testbit available n); cbn; congruence.
Qed.

(** The ChromeOS part changes only bits of its three masks. *)
Lemma EffectsForChromeOS_bit :
  forall p properties e n,
    (0 <= n)%Z ->
    Z.testbit (CLIENT_CONTROLLED_VOICE_ISOLATION p) n = false ->
    Z.testbit (VOICE_ISOLATION p) n = false ->
    Z.testbit (IGNORE_UI_GAINS p) n = false ->
    Z.testbit (EffectsForChromeOS p properties e) n = Z.testbit e n.
Proof.
  intros p properties e n Hn C V I.
  unfold EffectsForChromeOS. cbv zeta.
  destruct (kCrOSSystemVoiceIsolationOption p
            && has_effect e (VOICE_ISOLATION_SUPPORTED p)),
    (is_aec3 (echo_cancellation_type properties)),
    (voice_isolation properties), (kIgnoreUiGains p),
    (auto_gain_control properties);
    cbn [orb]; effect_bits Hn; rewrite ?C, ?V, ?I;
    destruct (Z.testbit e n); reflexivity.
Qed.

Lemma disjoint_masks_pair :
  forall p i j a b,
    disjoint_masks p ->
    nth_error
      [ECHO_CANCELLER p; NOISE_SUPPRESSION p; AUTOMATIC_GAIN_CONTROL p;
       VOICE_ISOLATION_SUPPORTED p; CLIENT_CONTROLLED_VOICE_ISOLATION p;
       VOICE_ISOLATION p; IGNORE_UI_GAINS p] i = Some a ->
    nth_error
      [ECHO_CANCELLER p; NOISE_SUPPRESSION p; AUTOMATIC_GAIN_CONTROL p;
       VOICE_ISOLATION_SUPPORTED p; CLIENT_CONTROLLED_VOICE_ISOLATION p;
       VOICE_ISOLATION p; IGNORE_UI_GAINS p] j = Some b ->
    i <> j ->
    forall n, Z.testbit a n = true -> Z.testbit b n = false.
Proof.
  intros p i j a b D Ha Hb Hij n. apply disjoint_bit.
  exact (D i j a b Ha Hb Hij).
Qed.

(** A bit of one of the masks the first part clears is no bit of the three
    masks the ChromeOS part writes, so that part leaves it alone. *)
Lemma ApplyPropertiesToEffects_bit :
  forall p properties available i m n,
    disjoint_masks p ->
    nth_error
      [ECHO_CANCELLER p; NOISE_SUPPRESSION p; AUTOMATIC_GAIN_CONTROL p;
       VOICE_ISOLATION_SUPPORTED p] i = Some m ->
    (0 <= n)%Z -> Z.testbit m n = true ->
    Z.testbit (ApplyPropertiesToEffects p properties available) n =
      Z.testbit (EffectsForEchoCancellation p properties available) n.
Proof.
  intros p properties available i m n D Hm Hn M.
  unfold ApplyPropertiesToEffects. cbv zeta.
  destruct (IS_CHROMEOS p); [|reflexivity].
  assert (Hi : nth_error
                 [ECHO_CANCELLER p; NOISE_SUPPRESSION p;
                  AUTOMATIC_GAIN_CONTROL p; VOICE_ISOLATION_SUPPORTED p;
                  CLIENT_CONTROLLED_VOICE_ISOLATION p; VOICE_ISOLATION p;
                  IGNORE_UI_GAINS p] i = Some m).
  { destruct i as [|[|[|[|i]]]]; try exact Hm.
    destruct i; discriminate Hm. }
  assert (Li : (i < 4)%nat).
  { destruct i as [|[|[|[|i]]]]; try lia. destruct i; discriminate Hm. }
  apply EffectsForChromeOS_bit; [exact Hn| | |].
  - apply (disjoint_masks_pair p i 4%nat m _ D Hi eq_refl); [lia|exact M].
  - apply (disjoint_masks_pair p i 5%nat m _ D Hi eq_refl); [lia|exact M].
  - apply (disjoint_masks_pair p i 6%nat m _ D Hi eq_refl); [lia|exact M].
Qed.

(** X10.  [ApplyPropertiesToEffects] turns on no bit that is neither
    available nor a bit of the three masks the ChromeOS block writes
    ([CLIENT_CONTROLLED_VOICE_ISOLATION], [VOICE_ISOLATION],
    [IGNORE_UI_GAINS]); on a build other than ChromeOS the result has only
    bits of the available effects. *)
Theorem platform_effects_within_available :
  forall (p : Platform) (properties : AudioProcessingProperties)
         (available : Z),
    submask (ApplyPropertiesToEffects p properties available)
      (Z.lor available
         (Z.lor (CLIENT_CONTROLLED_VOICE_ISOLATION p)
            (Z.lor (VOICE_ISOLATION p) (IGNORE_UI_GAINS p)))) /\
    (IS_CHROMEOS p = false ->
     submask (ApplyPropertiesToEffects p properties available) available).
Proof.
  intros p properties available. split.
  - intros n H.
    destruct (Z.ltb_spec n 0) as [Hneg | Hn];
      [rewrite Z.testbit_neg_r in H by exact Hneg; discriminate H|].
    rewrite !Z.lor_spec.
    destruct (Z.testbit (CLIENT_CONTROLLED_VOICE_ISOLATION p) n) eqn:C;
      [auto with bool|].
    destruct (Z.testbit (VOICE_ISOLATION p) n) eqn:V;
      [auto with bool|].
    destruct (Z.testbit (IGNORE_UI_GAINS p) n) eqn:I;
      [auto with bool|].
    rewrite !orb_false_r.
    apply (EffectsForEchoCancellation_bit p properties available n Hn).
    unfold ApplyPropertiesToEffects in H. cbv zeta in H.
    destruct (IS_CHROMEOS p); [|exact H].
    rewrite EffectsForChromeOS_bit in H by assumption. exact H.
  - intros C n H.
    destruct (Z.ltb_spec n 0) as [Hneg | Hn];
      [rewrite Z.testbit_neg_r in H by exact Hneg; discriminate H|].
    unfold ApplyPropertiesToEffects in H. cbv zeta in H. rewrite C in H.
    exact (EffectsForEchoCancellation_bit p properties available n Hn H).
Qed.

(** Without system echo cancellation the first part clears the bits of
    [ECHO_CANCELLER] and [AUTOMATIC_GAIN_CONTROL], and on ChromeOS and
    Windows those of [NOISE_SUPPRESSION]. *)
Lemma EffectsForEchoCancellation_cleared_bit :
  forall p properties available n,
    (0 <= n)%Z ->
    is_system (echo_cancellation_type properties) = false ->
    Z.testbit (ECHO_CANCELLER p) n = true \/
    Z.testbit (AUTOMATIC_GAIN_CONTROL p) n = true \/
    (IS_CHROMEOS p || IS_WIN p = true /\
     Z.testbit (NOISE_SUPPRESSION p) n = true) ->
    Z.testbit (EffectsForEchoCancellation p properties available) n = false.
Proof.
  intros p properties available n Hn S H.
  unfold EffectsForEchoCancellation, IsIndependentSystemNsAllowed.
  rewrite S. cbv zeta.
  destruct H as [E | [A | [B N]]].
  - destruct (IS_CHROMEOS p || IS_WIN p); cbn [negb];
      effect_bits Hn; rewrite E; cbn; rewrite ?andb_false_r; reflexivity.
  - destruct (IS_CHROMEOS p || IS_WIN p); cbn [negb];
      effect_bits Hn; rewrite A; cbn; rewrite ?andb_false_r; reflexivity.
  - rewrite B. cbn [negb]. effect_bits Hn. rewrite N. cbn.
    apply andb_false_r.
Qed.

(** A mask whose bits the first part has cleared has no effect left in the
    result. *)
Lemma cleared_mask_has_no_effect :
  forall p properties available i m,
    disjoint_masks p ->
    nth_error
      [ECHO_CANCELLER p; NOISE_SUPPRESSION p; AUTOMATIC_GAIN_CONTROL p;
       VOICE_ISOLATION_SUPPORTED p] i = Some m ->
    (forall n, (0 <= n)%Z -> Z.testbit m n = true ->
       Z.testbit (EffectsForEchoCancellation p properties available) n =
         false) ->
    has_effect (ApplyPropertiesToEffects p properties available) m = false.
Proof.
  intros p properties available i m D Hm H.
  apply has_effect_false_iff, land_bits_zero. intros n Hn M.
  rewrite (ApplyPropertiesToEffects_bit p properties available i m n
             D Hm Hn M).
  exact (H n Hn M).
Qed.

(** *** Properties of the layout *)

(** X11.  When the properties do not ask for system echo cancellation, the
    result has no [ECHO_CANCELLER] and no [AUTOMATIC_GAIN_CONTROL] effect,
    and on a ChromeOS or Windows build no [NOISE_SUPPRESSION] effect,
    whatever is available. *)
Theorem no_system_echo_cancellation_clears_platform_effects :
  forall (p : Platform) (properties : AudioProcessingProperties)
         (available : Z),
    disjoint_masks p ->
    is_system (echo_cancellation_type properties) = false ->
    let effects := ApplyPropertiesToEffects p properties available in
    has_effect effects (ECHO_CANCELLER p) = false /\
    has_effect effects (AUTOMATIC_GAIN_CONTROL p) = false /\
    (IS_CHROMEOS p || IS_WIN p = true ->
     has_effect effects (NOISE_SUPPRESSION p) = false).
Proof.
  intros p properties available D S effects. unfold effects.
  split; [|split].
  - apply (cleared_mask_has_no_effect p properties available 0%nat _ D
             eq_refl).
    intros n Hn M. apply EffectsForEchoCancellation_cleared_bit; auto.
  - apply (cleared_mask_has_no_effect p properties available 2%nat _ D
             eq_refl).
    intros n Hn M. apply EffectsForEchoCancellation_cleared_bit; auto.
  - intros B.
    apply (cleared_mask_has_no_effect p properties available 1%nat _ D
             eq_refl).
    intros n Hn M. apply EffectsForEchoCancellation_cleared_bit; auto.
Qed.

(** X12.  When the properties ask for system echo cancellation, the bits
    of [ECHO_CANCELLER] are as available, those of [NOISE_SUPPRESSION] are
    as available if noise suppression is requested, and those of
    [AUTOMATIC_GAIN_CONTROL] are as available if gain control is requested;
    on a Windows build, which is no ChromeOS build, the effects are
    returned as they are available. *)
Theorem system_echo_cancellation_keeps_requested_effects :
  forall (p : Platform) (properties : AudioProcessingProperties)
         (available : Z),
    disjoint_masks p ->
    is_system (echo_cancellation_type properties) = true ->
    let effects := ApplyPropertiesToEffects p properties available in
    Z.land effects (ECHO_CANCELLER p) =
      Z.land available (ECHO_CANCELLER p) /\
    (noise_suppression properties = true ->
     Z.land effects (NOISE_SUPPRESSION p) =
       Z.land available (NOISE_SUPPRESSION p)) /\
    (auto_gain_control properties = true ->
     Z.land effects (AUTOMATIC_GAIN_CONTROL p) =
       Z.land available (AUTOMATIC_GAIN_CONTROL p)) /\
    (IS_WIN p = true -> IS_CHROMEOS p = false -> effects = available).
Proof.
  intros p properties available D S effects.
  assert (Bit : forall i m n,
            nth_error
              [ECHO_CANCELLER p; NOISE_SUPPRESSION p;
               AUTOMATIC_GAIN_CONTROL p; VOICE_ISOLATION_SUPPORTED p] i =
              Some m ->
            (0 <= n)%Z -> Z.testbit m n = true ->
            Z.testbit effects n =
              Z.testbit
                (EffectsForEchoCancellation p properties available) n)
    by (intros i m n; apply ApplyPropertiesToEffects_bit; exact D).
  unfold EffectsForEchoCancellation in Bit. rewrite S in Bit.
  cbv zeta in Bit.
  assert (EN : forall n, Z.testbit (ECHO_CANCELLER p) n = true ->
                         Z.testbit (NOISE_SUPPRESSION p) n = false)
    by (apply (disjoint_masks_pair p 0%nat 1%nat _ _ D eq_refl eq_refl);
        lia).
  assert (EA : forall n, Z.testbit (ECHO_CANCELLER p) n = true ->
                         Z.testbit (AUTOMATIC_GAIN_CONTROL p) n = false)
    by (apply (disjoint_masks_pair p 0%nat 2%nat _ _ D eq_refl eq_refl);
        lia).
  assert (NA : forall n, Z.testbit (NOISE_SUPPRESSION p) n = true ->
                         Z.testbit (AUTOMATIC_GAIN_CONTROL p) n = false)
    by (apply (disjoint_masks_pair p 1%nat 2%nat _ _ D eq_refl eq_refl);
        lia).
  assert (AN : forall n, Z.testbit (AUTOMATIC_GAIN_CONTROL p) n = true ->
                         Z.testbit (NOISE_SUPPRESSION p) n = false)
    by (apply (disjoint_masks_pair p 2%nat 1%nat _ _ D eq_refl eq_refl);
        lia).
  split; [|split; [|split]].
  - apply land_bits_eq. intros n Hn M.
    rewrite (Bit 0%nat _ n eq_refl Hn M).
    destruct (IS_WIN p), (noise_suppression properties),
      (auto_gain_control properties), (IsIndependentSystemNsAllowed p);
      cbn [negb]; effect_bits Hn; rewrite ?(EN n M), ?(EA n M); cbn;
      rewrite ?andb_true_r; reflexivity.
  - intros N. apply land_bits_eq. intros n Hn M.
    rewrite (Bit 1%nat _ n eq_refl Hn M). rewrite N.
    destruct (IS_WIN p), (auto_gain_control properties);
      cbn [negb]; effect_bits Hn; rewrite ?(NA n M); cbn;
      rewrite ?andb_true_r; reflexivity.
  - intros A. apply land_bits_eq. intros n Hn M.
    rewrite (Bit 2%nat _ n eq_refl Hn M). rewrite A.
    destruct (IS_WIN p), (noise_suppression properties),
      (IsIndependentSystemNsAllowed p);
      cbn [negb]; effect_bits Hn; rewrite ?(AN n M); cbn;
      rewrite ?andb_true_r; reflexivity.
  - intros W C. unfold effects, ApplyPropertiesToEffects.
    cbv zeta. rewrite C. unfold EffectsForEchoCancellation.
    rewrite S, W. reflexivity.
Qed.

Lemma EffectsForEchoCancellation_as_mask :
  forall p properties e,
    EffectsForEchoCancellation p properties e =
      Z.land e (EffectsForEchoCancellation p properties (-1)).
Proof.
  intros p properties e. unfold EffectsForEchoCancellation. cbv zeta.
  apply Z.bits_inj'. intros n Hn.
  destruct (is_system _), (IS_WIN p), (noise_suppression properties),
    (auto_gain_control properties), (IsIndependentSystemNsAllowed p);
    cbn [negb]; rewrite ?Z.land_spec; effect_bits Hn;
    rewrite ?Z.bits_m1 by exact Hn;
    destruct (Z.testbit e n); reflexivity.
Qed.

Lemma EffectsForEchoCancellation_untouched_bit :
  forall p properties e n,
    (0 <= n)%Z ->
    Z.testbit (ECHO_CANCELLER p) n = false ->
    Z.testbit (NOISE_SUPPRESSION p) n = false ->
    Z.testbit (AUTOMATIC_GAIN_CONTROL p) n = false ->
    Z.testbit (EffectsForEchoCancellation p properties e) n = Z.testbit e n.
Proof.
  intros p properties e n Hn E N A.
  unfold EffectsForEchoCancellation. cbv zeta.
  destruct (is_system _), (IS_WIN p), (noise_suppression properties),
    (auto_gain_control properties), (IsIndependentSystemNsAllowed p);
    cbn [negb]; effect_bits Hn; rewrite ?E, ?N, ?A;
    destruct (Z.testbit e n); reflexivity.
Qed.

Lemma has_effect_land :
  forall a b m, Z.land a m = Z.land b m -> has_effect a m = has_effect b m.
Proof. intros a b m H. unfold has_effect. rewrite H. reflexivity. Qed.

(** The ChromeOS part, for a given answer [c] to its test of
    [VOICE_ISOLATION_SUPPORTED], bit by bit. *)
Lemma EffectsForChromeOS_twice_bit :
  forall p properties e e' n,
    (0 <= n)%Z ->
    has_effect e' (VOICE_ISOLATION_SUPPORTED p) =
      has_effect e (VOICE_ISOLATION_SUPPORTED p) ->
    Z.testbit e' n = Z.testbit (EffectsForChromeOS p properties e) n ->
    Z.testbit (EffectsForChromeOS p properties e') n =
      Z.testbit (EffectsForChromeOS p properties e) n.
Proof.
  intros p properties e e' n Hn Hc He.
  revert He. unfold EffectsForChromeOS. cbv zeta. rewrite Hc.
  destruct (kCrOSSystemVoiceIsolationOption p
            && has_effect e (VOICE_ISOLATION_SUPPORTED p)),
    (is_aec3 (echo_cancellation_type properties)),
    (voice_isolation properties), (kIgnoreUiGains p),
    (auto_gain_control properties);
    cbn [orb]; effect_bits Hn; intros ->;
    destruct (Z.testbit e n),
      (Z.testbit (CLIENT_CONTROLLED_VOICE_ISOLATION p) n),
      (Z.testbit (VOICE_ISOLATION p) n),
      (Z.testbit (IGNORE_UI_GAINS p) n); reflexivity.
Qed.

(** X13.  Applying the same properties to effects they were already
    applied to changes nothing. *)
Theorem ApplyPropertiesToEffects_idempotent :
  forall (p : Platform) (properties : AudioProcessingProperties)
         (available : Z),
    disjoint_masks p ->
    ApplyPropertiesToEffects p properties
      (ApplyPropertiesToEffects p properties available) =
    ApplyPropertiesToEffects p properties available.
Proof.
  intros p properties available D.
  unfold ApplyPropertiesToEffects. cbv zeta.
  set (e1 := EffectsForEchoCancellation p properties available).
  assert (I1 : EffectsForEchoCancellation p properties e1 = e1).
  { unfold e1.
    rewrite (EffectsForEchoCancellation_as_mask p properties
               (EffectsForEchoCancellation p properties available)).
    rewrite (EffectsForEchoCancellation_as_mask p properties available)
      at 1.
    rewrite <- Z.land_assoc, Z.land_diag.
    symmetry. apply EffectsForEchoCancellation_as_mask. }
  destruct (IS_CHROMEOS p); [|exact I1].
  set (e2 := EffectsForChromeOS p properties e1).
  assert (C : EffectsForEchoCancellation p properties e2 = e2).
  { assert (Cleared : forall i m n,
              (i < 3)%nat ->
              nth_error
                [ECHO_CANCELLER p; NOISE_SUPPRESSION p;
                 AUTOMATIC_GAIN_CONTROL p; VOICE_ISOLATION_SUPPORTED p;
                 CLIENT_CONTROLLED_VOICE_ISOLATION p; VOICE_ISOLATION p;
                 IGNORE_UI_GAINS p] i = Some m ->
              (0 <= n)%Z -> Z.testbit m n = true ->
              Z.testbit (EffectsForEchoCancellation p properties e2) n =
                Z.testbit e2 n).
    { intros i m n Li Hm Hn M.
      assert (B2 : Z.testbit e2 n = Z.testbit e1 n).
      { unfold e2. apply EffectsForChromeOS_bit; [exact Hn| | |].
        - apply (disjoint_masks_pair p i 4%nat m _ D Hm eq_refl);
            [lia|exact M].
        - apply (disjoint_masks_pair p i 5%nat m _ D Hm eq_refl);
            [lia|exact M].
        - apply (disjoint_masks_pair p i 6%nat m _ D Hm eq_refl);
            [lia|exact M]. }
      rewrite EffectsForEchoCancellation_as_mask, Z.land_spec, B2.
      rewrite <- I1 at 2.
      rewrite (EffectsForEchoCancellation_as_mask p properties e1),
        Z.land_spec.
      reflexivity. }
    apply Z.bits_inj'. intros n Hn.
    destruct (Z.testbit (ECHO_CANCELLER p) n) eqn:E;
      [exact (Cleared 0%nat _ n ltac:(lia) eq_refl Hn E)|].
    destruct (Z.testbit (NOISE_SUPPRESSION p) n) eqn:N;
      [exact (Cleared 1%nat _ n ltac:(lia) eq_refl Hn N)|].
    destruct (Z.testbit (AUTOMATIC_GAIN_CONTROL p) n) eqn:A;
      [exact (Cleared 2%nat _ n ltac:(lia) eq_refl Hn A)|].
    apply EffectsForEchoCancellation_untouched_bit; assumption. }
  rewrite C.
  apply Z.bits_inj'. intros n Hn.
  apply EffectsForChromeOS_twice_bit; [exact Hn| |reflexivity].
  apply has_effect_land, land_bits_eq. intros k Hk M.
  unfold e2. apply EffectsForChromeOS_bit; [exact Hk| | |].
  - apply (disjoint_masks_pair p 3%nat 4%nat _ _ D eq_refl eq_refl);
      [lia|exact M].
  - apply (disjoint_masks_pair p 3%nat 5%nat _ _ D eq_refl eq_refl);
      [lia|exact M].
  - apply (disjoint_masks_pair p 3%nat 6%nat _ _ D eq_refl eq_refl);
      [lia|exact M].
Qed.

(** X14.  In a constructed layout noise suppression runs in tandem exactly
    when the platform effect is enabled, the properties request noise
    suppression and the tandem switch for it is on; the same holds for
    automatic gain control with its effect, request and switch. *)
Theorem tandem_needs_platform_effect_request_and_switch :
  forall (p : Platform) (properties : AudioProcessingProperties)
         (available channels : Z),
    let layout :=
      MediaStreamAudioProcessingLayout_new p properties available channels in
    NoiseSuppressionInTandem p layout =
      has_effect (platform_effects_ layout) (NOISE_SUPPRESSION p)
      && noise_suppression properties
      && IsSystemEchoCancellationEnforcedAndAllowNsInTandem p /\
    AutomaticGainControlInTandem p layout =
      has_effect (platform_effects_ layout) (AUTOMATIC_GAIN_CONTROL p)
      && auto_gain_control properties
      && IsSystemEchoCancellationEnforcedAndAllowAgcInTandem p.
Proof.
  intros p properties available channels layout.
  unfold NoiseSuppressionInTandem, AutomaticGainControlInTandem, layout,
    MediaStreamAudioProcessingLayout_new, ComputeWebrtcProcessingSettings.
  cbn.
  split.
  - destruct (has_effect _ (NOISE_SUPPRESSION p)),
      (noise_suppression properties),
      (IsSystemEchoCancellationEnforcedAndAllowNsInTandem p); reflexivity.
  - destruct (has_effect _ (AUTOMATIC_GAIN_CONTROL p)),
      (auto_gain_control properties),
      (IsSystemEchoCancellationEnforcedAndAllowAgcInTandem p); reflexivity.
Qed.

(** X15.  In a layout constructed without system echo cancellation, the
    WebRTC gain control setting is the requested one and gain control never
    runs in tandem; on a ChromeOS or Windows build the same holds for noise
    suppression. *)
Theorem without_system_echo_cancellation_webrtc_controls_gain :
  forall (p : Platform) (properties : AudioProcessingProperties)
         (available channels : Z),
    disjoint_masks p ->
    is_system (echo_cancellation_type properties) = false ->
    let layout :=
      MediaStreamAudioProcessingLayout_new p properties available channels in
    settings_automatic_gain_control (webrtc_processing_settings_ layout) =
      auto_gain_control properties /\
    AutomaticGainControlInTandem p layout = false /\
    (IS_CHROMEOS p || IS_WIN p = true ->
     settings_noise_suppression (webrtc_processing_settings_ layout) =
       noise_suppression properties /\
     NoiseSuppressionInTandem p layout = false).
Proof.
  intros p properties available channels D S layout.
  assert (A : has_effect (ApplyPropertiesToEffects p properties available)
                 (AUTOMATIC_GAIN_CONTROL p) = false).
  { apply (cleared_mask_has_no_effect p properties available 2%nat _ D
             eq_refl).
    intros n Hn M. apply EffectsForEchoCancellation_cleared_bit; auto. }
  assert (N : IS_CHROMEOS p || IS_WIN p = true ->
              has_effect (ApplyPropertiesToEffects p properties available)
                (NOISE_SUPPRESSION p) = false).
  { intros B.
    apply (cleared_mask_has_no_effect p properties available 1%nat _ D
             eq_refl).
    intros n Hn M. apply EffectsForEchoCancellation_cleared_bit; auto. }
  unfold layout, AutomaticGainControlInTandem, NoiseSuppressionInTandem,
    MediaStreamAudioProcessingLayout_new, ComputeWebrtcProcessingSettings.
  cbn [webrtc_processing_settings_ platform_effects_
       settings_automatic_gain_control settings_noise_suppression].
  rewrite A. cbn [negb andb]. rewrite orb_true_r, andb_true_r.
  split; [reflexivity|]. split; [reflexivity|].
  intros B. rewrite (N B). cbn [negb andb].
  rewrite orb_true_r, andb_true_r. split; reflexivity.
Qed.

(** X16.  When [NeedWebrtcAudioProcessing] answers no for a constructed
    layout, the settings' own answer is no, noise suppression is neither
    requested nor set in the WebRTC settings, and on a build other than iOS
    the same holds for automatic gain control. *)
Theorem no_webrtc_processing_means_nothing_requested :
  forall (p : Platform) (settings_need : AudioProcessingSettings -> bool)
         (properties : AudioProcessingProperties) (available channels : Z),
    let layout :=
      MediaStreamAudioProcessingLayout_new p properties available channels in
    NeedWebrtcAudioProcessing p settings_need layout = false ->
    settings_need (webrtc_processing_settings_ layout) = false /\
    noise_suppression properties = false /\
    settings_noise_suppression (webrtc_processing_settings_ layout) = false /\
    (IS_IOS p = false ->
     auto_gain_control properties = false /\
     settings_automatic_gain_control (webrtc_processing_settings_ layout) =
       false).
Proof.
  intros p settings_need properties available channels layout.
  unfold NeedWebrtcAudioProcessing.
  destruct (settings_need (webrtc_processing_settings_ layout));
    [discriminate|].
  unfold layout, MediaStreamAudioProcessingLayout_new,
    ComputeWebrtcProcessingSettings.
  cbn [properties_ webrtc_processing_settings_ settings_noise_suppression
       settings_automatic_gain_control].
  destruct (IS_IOS p), (auto_gain_control properties),
    (noise_suppression properties); cbn; intros H;
    try discriminate H; repeat split; intros; try reflexivity;
    discriminate.
Qed.

(** *** The layout at sample inputs *)

Lemma sample_platform_disjoint :
  forall chromeos win tandem,
    disjoint_masks (sample_platform chromeos win tandem).
Proof.
  intros chromeos win tandem. unfold disjoint_masks. cbv zeta.
  intros i j a b Ha Hb Hij.
  destruct i as [|[|[|[|[|[|[|i]]]]]]];
    try (destruct i; discriminate Ha); injection Ha as <-;
    destruct j as [|[|[|[|[|[|[|j]]]]]]];
    try (destruct j; discriminate Hb); injection Hb as <-;
    try reflexivity; contradiction Hij; reflexivity.
Qed.

Lemma platform_effects_within_available_witness :
  submask
    (ApplyPropertiesToEffects (sample_platform false false false)
       (sample_properties kEchoCancellationDisabled true true) 49)
    49.
Proof.
  apply (platform_effects_within_available
           (sample_platform false false false)
           (sample_properties kEchoCancellationDisabled true true) 49).
  reflexivity.
Defined.

Lemma no_system_echo_cancellation_clears_platform_effects_witness :
  let effects :=
    ApplyPropertiesToEffects (sample_platform true false false)
      (sample_properties kEchoCancellationAec3 true true) 49 in
  has_effect effects 1 = false /\
  has_effect effects 32 = false /\
  has_effect effects 16 = false.
Proof.
  destruct (no_system_echo_cancellation_clears_platform_effects
              (sample_platform true false false)
              (sample_properties kEchoCancellationAec3 true true) 49
              (sample_platform_disjoint true false false) eq_refl)
    as [E [A N]].
  split; [exact E|]. split; [exact A|]. apply N. reflexivity.
Defined.

Lemma system_echo_cancellation_keeps_requested_effects_witness :
  let effects :=
    ApplyPropertiesToEffects (sample_platform false true false)
      (sample_properties kEchoCancellationSystem true true) 49 in
  Z.land effects 1 = Z.land 49 1 /\
  Z.land effects 16 = Z.land 49 16 /\
  Z.land effects 32 = Z.land 49 32 /\
  effects = 49%Z.
Proof.
  destruct (system_echo_cancellation_keeps_requested_effects
              (sample_platform false true false)
              (sample_properties kEchoCancellationSystem true true) 49
              (sample_platform_disjoint false true false) eq_refl)
    as [E [N [A W]]].
  split; [exact E|]. split; [apply N; reflexivity|].
  split; [apply A; reflexivity|]. apply W; reflexivity.
Defined.

Lemma ApplyPropertiesToEffects_idempotent_witness :
  let p := sample_platform true false false in
  let properties :=
    {| echo_cancellation_type := kEchoCancellationSystem;
       voice_isolation := kVoiceIsolationEnabled;
       noise_suppression := false; auto_gain_control := true |} in
  ApplyPropertiesToEffects p properties
    (ApplyPropertiesToEffects p properties 4145) =
  ApplyPropertiesToEffects p properties 4145.
Proof.
  apply (ApplyPropertiesToEffects_idempotent
           (sample_platform true false false)
           {| echo_cancellation_type := kEchoCancellationSystem;
              voice_isolation := kVoiceIsolationEnabled;
              noise_suppression := false; auto_gain_control := true |}
           4145).
  apply sample_platform_disjoint.
Defined.

Lemma without_system_echo_cancellation_webrtc_controls_gain_witness :
  let layout :=
    MediaStreamAudioProcessingLayout_new (sample_platform false true true)
      (sample_properties kEchoCancellationAec3 true true) 49 2 in
  settings_automatic_gain_control (webrtc_processing_settings_ layout) =
    true /\
  AutomaticGainControlInTandem (sample_platform false true true) layout =
    false /\
  settings_noise_suppression (webrtc_processing_settings_ layout) = true /\
  NoiseSuppressionInTandem (sample_platform false true true) layout = false.
Proof.
  destruct (without_system_echo_cancellation_webrtc_controls_gain
              (sample_platform false true true)
              (sample_properties kEchoCancellationAec3 true true) 49 2
              (sample_platform_disjoint false true true) eq_refl)
    as [A [T N]].
  split; [exact A|]. split; [exact T|]. apply N. reflexivity.
Defined.

Lemma no_webrtc_processing_means_nothing_requested_witness :
  let p := sample_platform false false false in
  let properties := sample_properties kEchoCancellationSystem false false in
  let layout := MediaStreamAudioProcessingLayout_new p properties 49 1 in
  let settings_need := fun s : AudioProcessingSettings =>
    settings_echo_cancellation s || settings_noise_suppression s
    || settings_automatic_gain_control s in
  settings_need (webrtc_processing_settings_ layout) = false /\
  noise_suppression properties = false /\
  settings_noise_suppression (webrtc_processing_settings_ layout) = false /\
  auto_gain_control properties = false /\
  settings_automatic_gain_control (webrtc_processing_settings_ layout) =
    false.
Proof.
  destruct (no_webrtc_processing_means_nothing_requested
              (sample_platform false false false)
              (fun s : AudioProcessingSettings =>
                 settings_echo_cancellation s || settings_noise_suppression s
                 || settings_automatic_gain_control s)
              (sample_properties kEchoCancellationSystem false false) 49 1
              eq_refl)
    as [S [N [W I]]].
  split; [exact S|]. split; [exact N|]. split; [exact W|].
  apply I. reflexivity.
Defined.

(** *** The ChromeOS block *)

Lemma land_bits_all :
  forall a m,
    (forall n, (0 <= n)%Z -> Z.testbit m n = true ->
               Z.testbit a n = true) ->
    Z.land a m = m.
Proof.
  intros a m H. apply Z.bits_inj'. intros n Hn. rewrite Z.land_spec.
  destruct (Z.testbit m n) eqn:M; [rewrite (H n Hn M); reflexivity|].
  apply andb_false_r.
Qed.

(** The first part leaves the bits of the four voice isolation and UI gains
    masks as they are available. *)
Lemma EffectsForEchoCancellation_keeps_bit :
  forall p properties available i m n,
    disjoint_masks p ->
    (3 <= i)%nat ->
    nth_error
      [ECHO_CANCELLER p; NOISE_SUPPRESSION p; AUTOMATIC_GAIN_CONTROL p;
       VOICE_ISOLATION_SUPPORTED p; CLIENT_CONTROLLED_VOICE_ISOLATION p;
       VOICE_ISOLATION p; IGNORE_UI_GAINS p] i = Some m ->
    (0 <= n)%Z -> Z.testbit m n = true ->
    Z.testbit (EffectsForEchoCancellation p properties available) n =
      Z.testbit available n.
Proof.
  intros p properties available i m n D Li Hm Hn M.
  apply EffectsForEchoCancellation_untouched_bit; [exact Hn| | |].
  - apply (disjoint_masks_pair p i 0%nat m _ D Hm eq_refl); [lia|exact M].
  - apply (disjoint_masks_pair p i 1%nat m _ D Hm eq_refl); [lia|exact M].
  - apply (disjoint_masks_pair p i 2%nat m _ D Hm eq_refl); [lia|exact M].
Qed.

(** X17.  On a ChromeOS build with the voice isolation option enabled and
    [VOICE_ISOLATION_SUPPORTED] among the available effects: with browser
    echo cancellation (AEC3) or voice isolation disabled in the properties,
    the result has the client-controlled bits set and no [VOICE_ISOLATION]
    effect; otherwise, with voice isolation enabled in the properties, it
    has both the client-controlled and the [VOICE_ISOLATION] bits set;
    otherwise it has no client-controlled bit and the [VOICE_ISOLATION]
    bits as available. *)
Theorem chromeos_voice_isolation_follows_properties :
  forall (p : Platform) (properties : AudioProcessingProperties)
         (available : Z),
    disjoint_masks p ->
    IS_CHROMEOS p = true ->
    kCrOSSystemVoiceIsolationOption p = true ->
    has_effect available (VOICE_ISOLATION_SUPPORTED p) = true ->
    let effects := ApplyPropertiesToEffects p properties available in
    let CLIENT := CLIENT_CONTROLLED_VOICE_ISOLATION p in
    (echo_cancellation_type properties = kEchoCancellationAec3 \/
     voice_isolation properties = kVoiceIsolationDisabled ->
     Z.land effects CLIENT = CLIENT /\
     has_effect effects (VOICE_ISOLATION p) = false) /\
    (echo_cancellation_type properties <> kEchoCancellationAec3 ->
     voice_isolation properties = kVoiceIsolationEnabled ->
     Z.land effects CLIENT = CLIENT /\
     Z.land effects (VOICE_ISOLATION p) = VOICE_ISOLATION p) /\
    (echo_cancellation_type properties <> kEchoCancellationAec3 ->
     voice_isolation properties = kVoiceIsolationDefault ->
     has_effect effects CLIENT = false /\
     Z.land effects (VOICE_ISOLATION p) =
       Z.land available (VOICE_ISOLATION p)).
Proof.
  intros p properties available D C O S effects CLIENT.
  set (e1 := EffectsForEchoCancellation p properties available).
  assert (K : forall i m n,
            (3 <= i)%nat ->
            nth_error
              [ECHO_CANCELLER p; NOISE_SUPPRESSION p;
               AUTOMATIC_GAIN_CONTROL p; VOICE_ISOLATION_SUPPORTED p;
               CLIENT_CONTROLLED_VOICE_ISOLATION p; VOICE_ISOLATION p;
               IGNORE_UI_GAINS p] i = Some m ->
            (0 <= n)%Z -> Z.testbit m n = true ->
            Z.testbit e1 n = Z.testbit available n)
    by (intros i m n Li Hm Hn M;
        exact (EffectsForEchoCancellation_keeps_bit p properties available
                 i m n D Li Hm Hn M)).
  assert (S1 : has_effect e1 (VOICE_ISOLATION_SUPPORTED p) = true).
  { rewrite <- S. apply has_effect_land, land_bits_eq.
    intros n Hn M. exact (K 3%nat _ n ltac:(lia) eq_refl Hn M). }
  assert (CV : forall n, Z.testbit CLIENT n = true ->
                         Z.testbit (VOICE_ISOLATION p) n = false)
    by (apply (disjoint_masks_pair p 4%nat 5%nat _ _ D eq_refl eq_refl);
        lia).
  assert (CI : forall n, Z.testbit CLIENT n = true ->
                         Z.testbit (IGNORE_UI_GAINS p) n = false)
    by (apply (disjoint_masks_pair p 4%nat 6%nat _ _ D eq_refl eq_refl);
        lia).
  assert (VC : forall n, Z.testbit (VOICE_ISOLATION p) n = true ->
                         Z.testbit CLIENT n = false)
    by (apply (disjoint_masks_pair p 5%nat 4%nat _ _ D eq_refl eq_refl);
        lia).
  assert (VI : forall n, Z.testbit (VOICE_ISOLATION p) n = true ->
                         Z.testbit (IGNORE_UI_GAINS p) n = false)
    by (apply (disjoint_masks_pair p 5%nat 6%nat _ _ D eq_refl eq_refl);
        lia).
  assert (E : effects = EffectsForChromeOS p properties e1)
    by (unfold effects, ApplyPropertiesToEffects; cbv zeta; rewrite C;
        reflexivity).
  rewrite E. unfold EffectsForChromeOS. cbv zeta. rewrite O, S1.
  cbn [andb]. fold CLIENT.
  split; [|split].
  - intros H.
    assert (B : is_aec3 (echo_cancellation_type properties)
                || match voice_isolation properties with
                   | kVoiceIsolationDisabled => true
                   | _ => false
                   end = true)
      by (destruct H as [-> | ->]; [reflexivity|apply orb_true_r]).
    rewrite B. split.
    + apply land_bits_all. intros n Hn M.
      destruct (kIgnoreUiGains p), (auto_gain_control properties);
        effect_bits Hn; rewrite M, ?(CV n M); cbn;
        rewrite ?orb_true_r; reflexivity.
    + apply has_effect_false_iff, land_bits_zero. intros n Hn M.
      destruct (kIgnoreUiGains p), (auto_gain_control properties);
        effect_bits Hn; rewrite M, ?(VI n M); cbn;
        rewrite ?andb_false_r; reflexivity.
  - intros NA V. rewrite V.
    assert (B : is_aec3 (echo_cancellation_type properties) = false)
      by (destruct (echo_cancellation_type properties);
          [reflexivity|contradiction NA; reflexivity|reflexivity]).
    rewrite B. cbn [orb]. split.
    + apply land_bits_all. intros n Hn M.
      destruct (kIgnoreUiGains p), (auto_gain_control properties);
        effect_bits Hn; rewrite M; cbn;
        rewrite ?orb_true_r; reflexivity.
    + apply land_bits_all. intros n Hn M.
      destruct (kIgnoreUiGains p), (auto_gain_control properties);
        effect_bits Hn; rewrite M; cbn;
        rewrite ?orb_true_r; reflexivity.
  - intros NA V. rewrite V.
    assert (B : is_aec3 (echo_cancellation_type properties) = false)
      by (destruct (echo_cancellation_type properties);
          [reflexivity|contradiction NA; reflexivity|reflexivity]).
    rewrite B. cbn [orb]. split.
    + apply has_effect_false_iff, land_bits_zero. intros n Hn M.
      destruct (kIgnoreUiGains p), (auto_gain_control properties);
        effect_bits Hn; rewrite M, ?(CI n M); cbn;
        rewrite ?andb_false_r; reflexivity.
    + apply land_bits_eq. intros n Hn M.
      rewrite <- (K 5%nat _ n ltac:(lia) eq_refl Hn M).
      destruct (kIgnoreUiGains p), (auto_gain_control properties);
        effect_bits Hn; rewrite ?(VC n M), ?(VI n M); cbn;
        rewrite ?andb_true_r, ?orb_false_r; reflexivity.
Qed.

(** X18.  The [IGNORE_UI_GAINS] bits of the result: on a ChromeOS build
    with the ignore-UI-gains feature and gain control requested they are
    all set; in every other case, and on every other build, they are as
    available. *)
Theorem ignore_ui_gains_follows_gain_control :
  forall (p : Platform) (properties : AudioProcessingProperties)
         (available : Z),
    disjoint_masks p ->
    Z.land (ApplyPropertiesToEffects p properties available)
      (IGNORE_UI_GAINS p) =
    if IS_CHROMEOS p && kIgnoreUiGains p && auto_gain_control properties
    then IGNORE_UI_GAINS p
    else Z.land available (IGNORE_UI_GAINS p).
Proof.
  intros p properties available D.
  set (e1 := EffectsForEchoCancellation p properties available).
  assert (K : forall n, (0 <= n)%Z ->
                        Z.testbit (IGNORE_UI_GAINS p) n = true ->
                        Z.testbit e1 n = Z.testbit available n)
    by (intros n Hn M;
        exact (EffectsForEchoCancellation_keeps_bit p properties available
                 6%nat _ n D ltac:(lia) eq_refl Hn M)).
  assert (IC : forall n, Z.testbit (IGNORE_UI_GAINS p) n = true ->
                 Z.testbit (CLIENT_CONTROLLED_VOICE_ISOLATION p) n = false)
    by (apply (disjoint_masks_pair p 6%nat 4%nat _ _ D eq_refl eq_refl);
        lia).
  assert (IV : forall n, Z.testbit (IGNORE_UI_GAINS p) n = true ->
                         Z.testbit (VOICE_ISOLATION p) n = false)
    by (apply (disjoint_masks_pair p 6%nat 5%nat _ _ D eq_refl eq_refl);
        lia).
  unfold ApplyPropertiesToEffects. cbv zeta. fold e1.
  destruct (IS_CHROMEOS p); cbn [andb].
  2:{ apply land_bits_eq. exact K. }
  unfold EffectsForChromeOS. cbv zeta.
  destruct (kIgnoreUiGains p), (auto_gain_control properties); cbn [andb].
  - apply land_bits_all. intros n Hn M. effect_bits Hn. rewrite M.
    apply orb_true_r.
  - apply land_bits_eq. intros n Hn M. rewrite <- (K n Hn M).
    destruct (kCrOSSystemVoiceIsolationOption p
              && has_effect e1 (VOICE_ISOLATION_SUPPORTED p)),
      (is_aec3 (echo_cancellation_type properties)),
      (voice_isolation properties);
      cbn [orb]; effect_bits Hn; rewrite ?(IC n M), ?(IV n M); cbn;
      rewrite ?andb_true_r, ?orb_false_r; reflexivity.
  - apply land_bits_eq. intros n Hn M. rewrite <- (K n Hn M).
    destruct (kCrOSSystemVoiceIsolationOption p
              && has_effect e1 (VOICE_ISOLATION_SUPPORTED p)),
      (is_aec3 (echo_cancellation_type properties)),
      (voice_isolation properties);
      cbn [orb]; effect_bits Hn; rewrite ?(IC n M), ?(IV n M); cbn;
      rewrite ?andb_true_r, ?orb_false_r; reflexivity.
  - apply land_bits_eq. intros n Hn M. rewrite <- (K n Hn M).
    destruct (kCrOSSystemVoiceIsolationOption p
              && has_effect e1 (VOICE_ISOLATION_SUPPORTED p)),
      (is_aec3 (echo_cancellation_type properties)),
      (voice_isolation properties);
      cbn [orb]; effect_bits Hn; rewrite ?(IC n M), ?(IV n M); cbn;
      rewrite ?andb_true_r, ?orb_false_r; reflexivity.
Qed.

Lemma chromeos_voice_isolation_follows_properties_witness :
  let p := sample_platform true false false in
  (Z.land
     (ApplyPropertiesToEffects p
        (sample_properties kEchoCancellationAec3 true true) 20497) 8192 =
     8192%Z /\
   has_effect
     (ApplyPropertiesToEffects p
        (sample_properties kEchoCancellationAec3 true true) 20497) 16384 =
     false) /\
  (Z.land
     (ApplyPropertiesToEffects p
        {| echo_cancellation_type := kEchoCancellationSystem;
           voice_isolation := kVoiceIsolationEnabled;
           noise_suppression := true; auto_gain_control := true |} 4097)
     8192 = 8192%Z /\
   Z.land
     (ApplyPropertiesToEffects p
        {| echo_cancellation_type := kEchoCancellationSystem;
           voice_isolation := kVoiceIsolationEnabled;
           noise_suppression := true; auto_gain_control := true |} 4097)
     16384 = 16384%Z) /\
  (has_effect
     (ApplyPropertiesToEffects p
        (sample_properties kEchoCancellationSystem true true) 28673) 8192 =
     false /\
   Z.land
     (ApplyPropertiesToEffects p
        (sample_properties kEchoCancellationSystem true true) 28673) 16384 =
     Z.land 28673 16384).
Proof.
  split; [|split].
  - apply (proj1 (chromeos_voice_isolation_follows_properties
                    (sample_platform true false false)
                    (sample_properties kEchoCancellationAec3 true true)
                    20497 (sample_platform_disjoint true false false)
                    eq_refl eq_refl eq_refl)).
    left. reflexivity.
  - apply (proj1 (proj2 (chromeos_voice_isolation_follows_properties
                    (sample_platform true false false)
                    {| echo_cancellation_type := kEchoCancellationSystem;
                       voice_isolation := kVoiceIsolationEnabled;
                       noise_suppression := true;
                       auto_gain_control := true |}
                    4097 (sample_platform_disjoint true false false)
                    eq_refl eq_refl eq_refl)));
      [discriminate|reflexivity].
  - apply (proj2 (proj2 (chromeos_voice_isolation_follows_properties
                    (sample_platform true false false)
                    (sample_properties kEchoCancellationSystem true true)
                    28673 (sample_platform_disjoint true false false)
                    eq_refl eq_refl eq_refl)));
      [discriminate|reflexivity].
Defined.

Lemma ignore_ui_gains_follows_gain_control_witness :
  Z.land
    (ApplyPropertiesToEffects (sample_platform true false false)
       (sample_properties kEchoCancellationSystem true true) 49) 32768 =
    32768%Z /\
  Z.land
    (ApplyPropertiesToEffects (sample_platform false false false)
       (sample_properties kEchoCancellationSystem true true) 49) 32768 =
    0%Z.
Proof.
  split.
  - apply (ignore_ui_gains_follows_gain_control
             (sample_platform true false false)
             (sample_properties kEchoCancellationSystem true true) 49).
    apply sample_platform_disjoint.
  - apply (ignore_ui_gains_follows_gain_control
             (sample_platform false false false)
             (sample_properties kEchoCancellationSystem true true) 49).
    apply sample_platform_disjoint.
Defined.
